(** * Study-tracker backend: statistics and streak engine, session stores

    Shallow embedding of the two backends of the repository:

    - the document-database variant: the [StudySession] model
      ([getUserStats], [getUserStreak] statics) and the study-session
      controller ([createStudySession], [updateStudySession],
      [deleteStudySession], [getUserStats]);
    - the flat-file variant: [database.js] ([users], [studySessions]
      operations over one JSON file) and the handlers of [server.js]
      (token check, registration and login, the study-session routes and
      the statistics).

    Conventions.  A JavaScript [Date] is its epoch value in milliseconds
    (a [Z]).  The server's local time zone is taken to be a fixed offset
    (UTC), so [setHours(0,0,0,0)] floors to a multiple of one day and
    [setDate(getDate() + n)] adds [n] days.  Clock reads ([new Date()],
    [Date.now()]) are an explicit argument.  The flat-file statistics are
    computed in double arithmetic ([Double]).  In the document-database
    variant durations are integers (the validators keep them between 1 and
    1440, where sums are exact), and the quotient of [$avg] is kept as a
    rational.  An object id is a string (that of its hexadecimal digits;
    most scenarios use short names instead); the cast of a route parameter
    to an object id is an explicit argument ([Routes]). *)

From Stdlib Require Import ZArith QArith Qcanon Qround Lia Lqa.
From stdpp Require Import base numbers option list strings sorting gmap fin_maps.

Local Open Scope Z_scope.

(** ** Dates *)

Module JSDate.

Definition MS_PER_DAY : Z := 86400000.

(** [d.setHours(0, 0, 0, 0)] *)
Definition setHours0 (t : Z) : Z := MS_PER_DAY * (t `div` MS_PER_DAY).

(** [d.setDate(d.getDate() + n)] *)
Definition addDays (t : Z) (n : Z) : Z := t + n * MS_PER_DAY.

(** Days since the epoch of a calendar date (proleptic Gregorian), used to
    write the dates of the scenarios. *)
Definition days_from_civil (y m d : Z) : Z :=
  let y' := if m <=? 2 then y - 1 else y in
  let era := y' `div` 400 in
  let yoe := y' - era * 400 in
  let mp := (m + 9) `mod` 12 in
  let doy := (153 * mp + 2) `div` 5 + d - 1 in
  let doe := yoe * 365 + yoe `div` 4 - yoe `div` 100 + doy in
  era * 146097 + doe - 719468.

(** The instant [y-m-d hh:mm] (UTC). *)
Definition at_time (y m d hh mm : Z) : Z :=
  days_from_civil y m d * MS_PER_DAY + hh * 3600000 + mm * 60000.

End JSDate.

(** ** Document-database variant: the [StudySession] model *)

Module Model.
Import JSDate.

Definition ObjectId := string.

(** A document of the [StudySession] collection (schema fields). *)
Record StudySession := mkStudySession {
  user : ObjectId;
  date : Z;
  duration : Z;
  subject : string;
  notes : option string;
  tags : list string;
  isCompleted : bool;
  quality : option Z
}.

(** The collection, keyed by [_id]. *)
Abbreviation Collection := (gmap ObjectId StudySession).

(** [this.find({ user: userId })] *)
Definition find_user (coll : Collection) (userId : ObjectId) : list StudySession :=
  filter (λ s, user s = userId) (snd <$> map_to_list coll).

(** [.sort({ date: -1 }).select('date')] *)
Definition sort_date_desc (sessions : list StudySession) : list Z :=
  merge_sort (flip Z.le) (date <$> sessions).

Record StreakResult := mkStreak { currentStreak : nat; maxStreak : nat }.

(** The loop variables of [getUserStreak]. *)
Record StreakVars := mkVars { v_current : nat; v_max : nat; v_temp : nat }.

(** One iteration of the [for] loop, at index [i] on [sessions[i].date]. *)
Definition streak_step (currentDate : Z) (i : nat) (d : Z) (v : StreakVars) : StreakVars :=
  let sessionDate := setHours0 d in
  let expectedDate := setHours0 (addDays currentDate (- Z.of_nat i)) in
  if sessionDate =? expectedDate then
    let temp := S (v_temp v) in
    mkVars (if Nat.eqb i 0 then temp else v_current v) (v_max v) temp
  else
    mkVars (v_current v) (Nat.max (v_max v) (v_temp v)) 0.

Fixpoint streak_loop (currentDate : Z) (i : nat) (dates : list Z) (v : StreakVars) : StreakVars :=
  match dates with
  | [] => v
  | d :: rest => streak_loop currentDate (S i) rest (streak_step currentDate i d v)
  end.

(** [sessions.some(session => startOfDay(session.date) === today)] *)
Definition hasSessionToday (dates : list Z) (now : Z) : bool :=
  existsb (λ d, setHours0 d =? setHours0 now) dates.

(** The date the walk starts from: [currentDate] after the
    [if (!hasSessionToday)] adjustment. *)
Definition anchor (dates : list Z) (now : Z) : Z :=
  if hasSessionToday dates now then now else addDays now (-1).

(** [getUserStreak] on the already fetched, sorted dates. *)
Definition streak_of_dates (dates : list Z) (now : Z) : StreakResult :=
  match dates with
  | [] => mkStreak 0 0
  | _ =>
    let v := streak_loop (anchor dates now) 0 dates (mkVars 0 0 0) in
    mkStreak (v_current v) (Nat.max (v_max v) (v_temp v))
  end.

(** [studySessionSchema.statics.getUserStreak] *)
Definition getUserStreak (coll : Collection) (userId : ObjectId) (now : Z) : StreakResult :=
  streak_of_dates (sort_date_desc (find_user coll userId)) now.

(** The invariant of the loop that relates the three counters. *)
Definition counters_ok (v : StreakVars) : Prop :=
  (v_current v ≤ Nat.max (v_max v) (v_temp v))%nat.

(** *** [getUserStats]: the aggregation pipeline *)

(** Result of the [$group] stage. [averageQuality] is [None] when [$avg]
    yields [null] (no document carries a quality). *)
Record Stats := mkStats {
  totalSessions : nat;
  totalDuration : Z;
  averageDuration : Qc;
  averageQuality : option Qc
}.

(** [matchStage]: the owner, and the date window when both bounds are given. *)
Definition matchStage (userId : ObjectId) (startDate endDate : option Z)
    (s : StudySession) : Prop :=
  user s = userId ∧
  match startDate, endDate with
  | Some lo, Some hi => lo ≤ date s ∧ date s ≤ hi
  | _, _ => True
  end.

#[global] Instance matchStage_dec userId startDate endDate s :
  Decision (matchStage userId startDate endDate s).
Proof. unfold matchStage. destruct startDate, endDate; apply _. Defined.

Definition sum_Z (l : list Z) : Z := foldl Z.add 0 l.

(** [$avg]: the mean of the values present, [null] when there is none. *)
Definition avg (l : list Z) : option Qc :=
  match l with
  | [] => None
  | _ => Some (Qc_of_Z (sum_Z l) / Qc_of_Z (Z.of_nat (length l)))%Qc
  end.

(** [studySessionSchema.statics.getUserStats] *)
Definition getUserStats (coll : Collection) (userId : ObjectId)
    (startDate endDate : option Z) : Stats :=
  let matched := filter (matchStage userId startDate endDate) (snd <$> map_to_list coll) in
  match matched with
  | [] => mkStats 0 0 0%Qc (Some 0%Qc)
  | _ =>
    mkStats (length matched)
            (sum_Z (duration <$> matched))
            (default 0%Qc (avg (duration <$> matched)))
            (avg (omap quality matched))
  end.

End Model.

(** ** HTTP responses *)

Inductive Response (A : Type) : Type :=
| Success (status : nat) (data : A)
| Failure (status : nat) (error : string).
Arguments Success {A} status data.
Arguments Failure {A} status error.

Definition status_of {A} (r : Response A) : nat :=
  match r with Success st _ | Failure st _ => st end.

(** ** Document-database variant: the study-session controller *)

Module Controller.
Import JSDate Model.

(** [getUserStats]: [{ stats: { ...stats, ...streak }, calendarData }] *)
Record StatsData := mkStatsData {
  stats : Stats;
  streak : StreakResult;
  calendarData : gmap Z Z
}.

(** [session.dateString] is the UTC day of the date; the calendar is
    keyed here by the number of that day. *)
Definition dateString (s : StudySession) : Z := date s `div` MS_PER_DAY.

(** The [forEach] that groups the recent sessions by day. *)
Definition group_by_date (recentSessions : list StudySession) : gmap Z Z :=
  foldl (λ sessionsByDate s,
           <[dateString s := default 0 (sessionsByDate !! dateString s) + duration s]>
             sessionsByDate)
        ∅ recentSessions.

Definition getUserStats (coll : Collection) (req_user : ObjectId)
    (startDate endDate : option Z) (now : Z) : Response StatsData :=
  let stats := Model.getUserStats coll req_user startDate endDate in
  let streak := Model.getUserStreak coll req_user now in
  let recentSessions :=
    filter (λ s, user s = req_user ∧ now - 90 * 24 * 60 * 60 * 1000 ≤ date s)
           (snd <$> map_to_list coll) in
  Success 200 (mkStatsData stats streak (group_by_date recentSessions)).

(** *** Create, update, delete *)

(** The [date] of a request body: a number of milliseconds, or a date
    string with the instant it casts to. *)
Inductive BodyDate : Type :=
| DateNumber (ms : Z)
| DateString (ms : Z).

(** The [Date] the schema casts the value to. *)
Definition date_cast (d : BodyDate) : Z :=
  match d with DateNumber ms | DateString ms => ms end.

(** Truthiness of the value: of these only the number 0 is falsy. *)
Definition date_truthy (d : BodyDate) : bool :=
  match d with DateNumber ms => negb (ms =? 0) | DateString _ => true end.

(** The request body after the schema casts. A field is [None] when the
    body does not carry it ([undefined]); [b_quality = Some None] is an
    explicit [null]. Values that do not cast end in the validation error
    of the handler and are not represented. *)
Record Body := mkBody {
  b_date : option BodyDate;
  b_duration : option Z;
  b_subject : option string;
  b_notes : option string;
  b_tags : option (list string);
  b_quality : option (option Z)
}.

Section Handlers.
(** [String.prototype.trim], applied by the [trim: true] setters. *)
Variable trim : string → string.

(** The validators of the schema. *)
Definition valid_duration (d : Z) : bool := (1 <=? d) && (d <=? 1440).
Definition valid_subject (s : string) : bool := (String.length s <=? 100)%nat.
Definition valid_notes (n : option string) : bool :=
  from_option (λ n, (String.length n <=? 500)%nat) true n.
Definition valid_tags (ts : list string) : bool :=
  forallb (λ t, (String.length t <=? 20)%nat) ts.
Definition valid_quality (q : option Z) : bool :=
  from_option (λ q, (1 <=? q) && (q <=? 5)) true q.

Definition validate (s : StudySession) : bool :=
  valid_duration (duration s) && valid_subject (subject s) &&
  valid_notes (notes s) && valid_tags (tags s) && valid_quality (quality s).

(** The handlers of the controller are given in two steps. The
    definitions of this section take the object id [id] that the route
    parameter [req.params.id] was cast to; [Routes], below, puts the cast
    of the parameter, which can fail, in front of them. *)

(** [StudySession.findOne({ _id: id, user: req.user._id })], once the
    filter is cast. *)
Definition findOne (coll : Collection) (id req_user : ObjectId) : option StudySession :=
  s ← coll !! id; guard (user s = req_user);; Some s.

(** [date || new Date()] *)
Definition date_or_now (date : option BodyDate) (now : Z) : Z :=
  match date with
  | Some d => if date_truthy d then date_cast d else now
  | None => now
  end.

(** [newId] is the [_id] the database draws for the document; a
    duplicate key makes [create] throw, which the handler answers
    with 500. *)
Definition createStudySession (coll : Collection) (req_user : ObjectId)
    (body : Body) (now : Z) (newId : ObjectId)
    : Response StudySession * Collection :=
  match b_duration body with
  | None => (Failure 400 "Validation error", coll)
  | Some d =>
    let studySession :=
      mkStudySession req_user
                     (date_or_now (b_date body) now)
                     d
                     (default "General Study" (trim <$> b_subject body))
                     (trim <$> b_notes body)
                     (default [] (map trim <$> b_tags body))
                     true
                     (default None (b_quality body)) in
    if validate studySession then
      match coll !! newId with
      | Some _ => (Failure 500 "Server error", coll)
      | None => (Success 201 studySession, <[newId := studySession]> coll)
      end
    else (Failure 400 "Validation error", coll)
  end.

(** The six [if (x !== undefined) studySession.x = x] assignments. *)
Definition assign_fields (body : Body) (s : StudySession) : StudySession :=
  mkStudySession (user s)
                 (default (date s) (date_cast <$> b_date body))
                 (default (duration s) (b_duration body))
                 (default (subject s) (trim <$> b_subject body))
                 (from_option (λ n, Some (trim n)) (notes s) (b_notes body))
                 (default (tags s) (map trim <$> b_tags body))
                 (isCompleted s)
                 (default (quality s) (b_quality body)).

(** [save()] validates the whole document, the paths loaded from the
    store as well as the assigned ones. *)
Definition updateStudySession (coll : Collection) (req_user : ObjectId)
    (id : ObjectId) (body : Body) : Response StudySession * Collection :=
  match findOne coll id req_user with
  | None => (Failure 404 "Study session not found", coll)
  | Some studySession =>
    let updated := assign_fields body studySession in
    if validate updated then
      (Success 200 updated, <[id := updated]> coll)
    else (Failure 400 "Validation error", coll)
  end.

(** [StudySession.findOneAndDelete({ _id: id, user: req.user._id })] *)
Definition deleteStudySession (coll : Collection) (req_user : ObjectId)
    (id : ObjectId) : Response unit * Collection :=
  match findOne coll id req_user with
  | None => (Failure 404 "Study session not found", coll)
  | Some _ => (Success 200 (), delete id coll)
  end.

(** *** The three mutating routes as one step on the collection *)

Inductive Request : Type :=
| Create (body : Body) (now : Z) (newId : ObjectId)
| Update (id : ObjectId) (body : Body)
| Delete (id : ObjectId).

(** The answer, with the body of the response reduced to the document it
    carries. *)
Definition handle (coll : Collection) (req_user : ObjectId) (req : Request)
    : Response (option StudySession) * Collection :=
  match req with
  | Create body now newId =>
    match createStudySession coll req_user body now newId with
    | (Success st s, coll') => (Success st (Some s), coll')
    | (Failure st e, coll') => (Failure st e, coll')
    end
  | Update id body =>
    match updateStudySession coll req_user id body with
    | (Success st s, coll') => (Success st (Some s), coll')
    | (Failure st e, coll') => (Failure st e, coll')
    end
  | Delete id =>
    match deleteStudySession coll req_user id with
    | (Success st _, coll') => (Success st None, coll')
    | (Failure st e, coll') => (Failure st e, coll')
    end
  end.

End Handlers.

(** The documents that [req_user] does not own are the same in [coll] and
    [coll']. *)
Definition foreign_unchanged (req_user : ObjectId) (coll coll' : Collection) : Prop :=
  ∀ id s, user s ≠ req_user → (coll' !! id = Some s ↔ coll !! id = Some s).

End Controller.

(** ** Flat-file variant: [database.js] *)

(** A primitive value of the JSON file or of a parsed request body; a
    number is an integer numeral. Arrays and objects are not represented:
    the handlers store body values as they receive them, and on an array or
    an object [===] compares references, so what is stated below about the
    comparison of a body value with a stored one is stated for primitive
    values, and where it matters for strings. *)
Inductive JSValue : Type :=
| VNull
| VBool (b : bool)
| VNum (n : Z)
| VStr (s : string).

#[global] Instance JSValue_eq_dec : EqDecision JSValue.
Proof. solve_decision. Defined.

(** A record of the file. A property read is a lookup; [None] is
    [undefined]. *)
Abbreviation JSObject := (gmap string JSValue).

Module Database.

(** The content of [data.json]. *)
Record DB := mkDB {
  users : list JSObject;
  studySessions : list JSObject
}.

(** [initializeDB] writes this when the file does not exist. *)
Definition defaultData : DB := mkDB [] [].

(** The two clock reads of [create]: [Date.now().toString()] and
    [new Date().toISOString()]. *)
Record Clock := mkClock { now_ms : string; now_iso : string }.

(** [{ ...a, ...b }]: the properties of [b] win. *)
Definition spread (a b : JSObject) : JSObject := b ∪ a.

(** [arr.findIndex(x => x.id === id)], with the element found. *)
Definition findIndex_id (arr : list JSObject) (id : option JSValue)
    : option (nat * JSObject) :=
  list_find (λ x, x !! "id" = id) arr.

(** Every operation reads the file ([data]) and returns its result with
    the content of the file afterwards. *)
Module userDB.

Definition getAll (data : DB) : list JSObject := users data.

Definition getById (data : DB) (id : option JSValue) : option JSObject :=
  snd <$> findIndex_id (users data) id.

Definition getByEmail (data : DB) (email : option JSValue) : option JSObject :=
  snd <$> list_find (λ u, u !! "email" = email) (users data).

Definition create (data : DB) (userData : JSObject) (clock : Clock) : JSObject * DB :=
  let newUser :=
    <["createdAt" := VStr (now_iso clock)]>
      (<["id" := VStr (now_ms clock)]> userData) in
  (newUser, mkDB (users data ++ [newUser]) (studySessions data)).

Definition update (data : DB) (id : option JSValue) (updates : JSObject)
    (clock : Clock) : option JSObject * DB :=
  match findIndex_id (users data) id with
  | None => (None, data)
  | Some (userIndex, u) =>
    let u' := <["updatedAt" := VStr (now_iso clock)]> (spread u updates) in
    (Some u', mkDB (<[userIndex := u']> (users data)) (studySessions data))
  end.

End userDB.

Module sessionDB.

Definition getByUserId (data : DB) (userId : option JSValue) : list JSObject :=
  filter (λ session, session !! "userId" = userId) (studySessions data).

Definition getById (data : DB) (id : option JSValue) : option JSObject :=
  snd <$> findIndex_id (studySessions data) id.

Definition create (data : DB) (sessionData : JSObject) (clock : Clock) : JSObject * DB :=
  let newSession :=
    <["createdAt" := VStr (now_iso clock)]>
      (<["id" := VStr (now_ms clock)]> sessionData) in
  (newSession, mkDB (users data) (studySessions data ++ [newSession])).

Definition update (data : DB) (id : option JSValue) (updates : JSObject)
    (clock : Clock) : option JSObject * DB :=
  match findIndex_id (studySessions data) id with
  | None => (None, data)
  | Some (sessionIndex, session) =>
    let session' := <["updatedAt" := VStr (now_iso clock)]> (spread session updates) in
    (Some session', mkDB (users data) (<[sessionIndex := session']> (studySessions data)))
  end.

Definition delete (data : DB) (id : option JSValue) : option JSObject * DB :=
  match findIndex_id (studySessions data) id with
  | None => (None, data)
  | Some (sessionIndex, deletedSession) =>
    (Some deletedSession,
     mkDB (users data) (base.delete sessionIndex (studySessions data)))
  end.

Definition getByDate (data : DB) (userId date : option JSValue) : list JSObject :=
  filter (λ session, session !! "userId" = userId ∧ session !! "date" = date)
         (studySessions data).

End sessionDB.

End Database.

(** ** Double arithmetic

    The numbers of JavaScript are IEEE 754 doubles. The statistics of the
    flat-file variant add integers and divide an integer by a count; these
    operations are given here on the integers that are doubles, each
    result being the double nearest to the exact one (ties to the even
    significand). *)

Module Double.

(** The integer nearest to [p / d] (for [0 < d]), a tie going to the even
    neighbour. *)
Definition round_half_even (p d : Z) : Z :=
  let q := p `div` d in
  let r := p `mod` d in
  if 2 * r <? d then q
  else if d <? 2 * r then q + 1
  else if Z.even q then q else q + 1.

(** The exponent [e] of the spacing [2 ^ e] of the doubles around [p / d]
    (for [0 < p] and [0 < d]): 52 below the binary exponent of the
    quotient, and -1074 in the subnormal range. *)
Definition ulp_exponent (p d : Z) : Z :=
  let g := Z.log2 p - Z.log2 d in
  let b := if d * 2 ^ Z.max 0 g <=? p * 2 ^ Z.max 0 (- g) then g else g - 1 in
  Z.max (b - 52) (-1074).

(** [t / n] for [0 < n]: the double nearest to the quotient, as the
    rational number it is. *)
Definition div (t n : Z) : Qc :=
  if t =? 0 then 0%Qc
  else
    let e := ulp_exponent (Z.abs t) n in
    let m := round_half_even (t * 2 ^ Z.max 0 (- e)) (n * 2 ^ Z.max 0 e) in
    (Qc_of_Z (m * 2 ^ Z.max 0 e) / Qc_of_Z (2 ^ Z.max 0 (- e)))%Qc.

(** The double nearest to the integer [z]; [None] when that is an
    infinity. Below [2 ^ 53] every integer is a double. *)
Definition of_Z (z : Z) : option Z :=
  if Z.abs z <? 2 ^ 53 then Some z
  else
    let e := Z.log2 (Z.abs z) - 52 in
    let r := round_half_even z (2 ^ e) * 2 ^ e in
    if Z.abs r <? 2 ^ 1024 then Some r else None.

(** [a + b] *)
Definition add (a b : Z) : option Z := of_Z (a + b).

End Double.

(** ** Flat-file variant: the handlers of [server.js] *)

Module Server.
Import Database.

(** Truthiness of a property read from a JSON object. *)
Definition truthy (v : option JSValue) : bool :=
  match v with
  | None | Some VNull => false
  | Some (VBool b) => b
  | Some (VNum n) => negb (n =? 0)
  | Some (VStr s) => negb (String.eqb s "")
  end.

(** [Math.round] of a double, given as the rational it is: the nearest
    integer, ties towards +∞. *)
Definition Math_round (q : Qc) : Z := Qfloor (q + (1 # 2))%Q.

(** The number a stored [duration] contributes to [sum + session.duration]
    while the sum is a finite number: the double the numeral parses to,
    0 for [null], 0 or 1 for a boolean. [None] otherwise: the numeral
    parses to an infinity, an absent duration makes the sum NaN, and a
    string turns [+] into a concatenation, which is not followed here. *)
Definition duration_number (session : JSObject) : option Z :=
  match session !! "duration" with
  | Some (VNum n) => Double.of_Z n
  | Some VNull => Some 0
  | Some (VBool b) => Some (if b then 1 else 0)
  | Some (VStr _) | None => None
  end.

(** [userSessions.reduce((sum, session) => sum + session.duration, 0)] *)
Definition sum_durations (userSessions : list JSObject) : option Z :=
  foldl (λ sum session, s ← sum; d ← duration_number session; Double.add s d)
        (Some 0) userSessions.

(** Body of the statistics response. A total or an average is [Some] of
    the finite number the code computes; [None] is said of the cases
    [duration_number] leaves out (NaN and the infinities, which the JSON of
    the response shows as [null], and the totals made with a string). *)
Record StatsData := mkStatsData {
  totalSessions : nat;
  totalDuration : option Z;
  averageDuration : option Z
}.

(** [verifyToken]: the user whose token the request carries. *)
Definition verifyToken (data : DB) (token : option string) : Response JSObject :=
  match token with
  | None => Failure 401 "No token provided"
  | Some t =>
    if String.eqb t "" then Failure 401 "No token provided"
    else match list_find (λ u, u !! "token" = Some (VStr t)) (userDB.getAll data) with
         | None => Failure 401 "Invalid token"
         | Some (_, user) => Success 200 user
         end
  end.

(** [o[k] = v] in an object literal; a property whose value is
    [undefined] is not written to the file nor to the response. *)
Definition set_prop (k : string) (v : option JSValue) (o : JSObject) : JSObject :=
  match v with Some v => <[k := v]> o | None => o end.

Section Handlers.
(** [parseInt], as the file and the response hold its result: a number,
    or [VNull] for NaN. *)
Variable parseInt : JSValue → JSValue.

(** [GET /api/study-sessions] *)
Definition get_sessions (data : DB) (req_user : JSObject) : Response (list JSObject) :=
  Success 200 (sessionDB.getByUserId data (req_user !! "id")).

(** [POST /api/study-sessions] *)
Definition post_session (data : DB) (req_user : JSObject) (body : JSObject)
    (clock : Clock) : Response JSObject * DB :=
  let date := body !! "date" in
  let duration := body !! "duration" in
  let notes := body !! "notes" in
  if negb (truthy date) || negb (truthy duration) then
    (Failure 400 "Date and duration are required", data)
  else
    let newSession :=
      set_prop "userId" (req_user !! "id")
        (set_prop "date" date
          (set_prop "duration" (parseInt <$> duration)
            (set_prop "notes" (if truthy notes then notes else Some (VStr "")) ∅))) in
    let '(createdSession, data') := sessionDB.create data newSession clock in
    (Success 201 createdSession, data').

(** The [updates] object built by [PUT /api/study-sessions/:id]. *)
Definition put_updates (body : JSObject) : JSObject :=
  let date := body !! "date" in
  let duration := body !! "duration" in
  let notes := body !! "notes" in
  let updates := ∅ in
  let updates := if truthy date then set_prop "date" date updates else updates in
  let updates :=
    if truthy duration then set_prop "duration" (parseInt <$> duration) updates
    else updates in
  match notes with
  | Some n => <["notes" := n]> updates
  | None => updates
  end.

(** [PUT /api/study-sessions/:id]; the response carries what
    [sessionDB.update] returned ([None] is [null]). *)
Definition put_session (data : DB) (req_user : JSObject) (id : string)
    (body : JSObject) (clock : Clock) : Response (option JSObject) * DB :=
  match sessionDB.getById data (Some (VStr id)) with
  | None => (Failure 404 "Study session not found", data)
  | Some session =>
    if decide (session !! "userId" ≠ req_user !! "id") then
      (Failure 404 "Study session not found", data)
    else
      let '(updatedSession, data') :=
        sessionDB.update data (Some (VStr id)) (put_updates body) clock in
      (Success 200 updatedSession, data')
  end.

(** [DELETE /api/study-sessions/:id] *)
Definition delete_session (data : DB) (req_user : JSObject) (id : string)
    : Response (option JSObject) * DB :=
  match sessionDB.getById data (Some (VStr id)) with
  | None => (Failure 404 "Study session not found", data)
  | Some session =>
    if decide (session !! "userId" ≠ req_user !! "id") then
      (Failure 404 "Study session not found", data)
    else
      let '(deletedSession, data') := sessionDB.delete data (Some (VStr id)) in
      (Success 200 deletedSession, data')
  end.

(** [GET /api/study-sessions/date/:date] *)
Definition get_sessions_by_date (data : DB) (req_user : JSObject) (date : string)
    : Response (list JSObject) :=
  Success 200 (sessionDB.getByDate data (req_user !! "id") (Some (VStr date))).

(** [GET /api/study-sessions/stats] *)
Definition get_stats (data : DB) (req_user : JSObject) : Response StatsData :=
  let userSessions := sessionDB.getByUserId data (req_user !! "id") in
  let totalSessions := length userSessions in
  let totalDuration := sum_durations userSessions in
  let averageDuration :=
    if (0 <? totalSessions)%nat then
      (λ t, Math_round (Double.div t (Z.of_nat totalSessions))) <$> totalDuration
    else Some 0 in
  Success 200 (mkStatsData totalSessions totalDuration averageDuration).

(** *** The mutating session routes as one step on the file *)

Inductive Request : Type :=
| POST_session (body : JSObject)
| PUT_session (id : string) (body : JSObject)
| DELETE_session (id : string).

(** The handler run for [req_user], with the body of the response
    reduced to the session it carries. *)
Definition handle (data : DB) (req_user : JSObject) (req : Request)
    (clock : Clock) : Response (option JSObject) * DB :=
  match req with
  | POST_session body =>
    match post_session data req_user body clock with
    | (Success st s, data') => (Success st (Some s), data')
    | (Failure st e, data') => (Failure st e, data')
    end
  | PUT_session id body => put_session data req_user id body clock
  | DELETE_session id => delete_session data req_user id
  end.

(** A route: [verifyToken], then the handler. *)
Definition route (data : DB) (token : option string) (req : Request)
    (clock : Clock) : Response (option JSObject) * DB :=
  match verifyToken data token with
  | Failure st e => (Failure st e, data)
  | Success _ req_user => handle data req_user req clock
  end.

End Handlers.

(** The sessions of the file that [caller] does not own. *)
Definition foreign (caller : JSObject) (sessions : list JSObject) : list JSObject :=
  filter (λ session, session !! "userId" ≠ caller !! "id") sessions.

End Server.

(** ** Rounding *)

(** "Rounded to the nearest integer": [a] is within one half of [q], a tie
    going to the larger neighbour. *)
Definition nearest_integer (a : Z) (q : Q) : Prop :=
  (inject_Z a - (1 # 2) <= q)%Q ∧ (q < inject_Z a + (1 # 2))%Q.

(** ** Scenarios *)

Module Scenarios.
Import JSDate.

(** A document of user ["u1"] dated [y-m-d hh:00]. *)
Definition session_on (y m d hh : Z) (minutes : Z) : Model.StudySession :=
  Model.mkStudySession "u1" (at_time y m d hh 0) minutes "General Study" None [] true None.

(** Sessions on 2024-01-01, 01-02 and 01-03. *)
Definition three_days : Model.Collection :=
  list_to_map [("s1", session_on 2024 1 1 10 30);
               ("s2", session_on 2024 1 2 9 30);
               ("s3", session_on 2024 1 3 8 30)].

(** Sessions on 2024-01-01, 01-02, and after a gap on 01-05. *)
Definition gap_history : Model.Collection :=
  list_to_map [("s1", session_on 2024 1 1 10 30);
               ("s2", session_on 2024 1 2 9 30);
               ("s5", session_on 2024 1 5 8 30)].

(** One session on 2024-01-01 and one on 01-02 ... *)
Definition two_days : Model.Collection :=
  list_to_map [("s1", session_on 2024 1 1 10 30);
               ("s2", session_on 2024 1 2 9 30)].

(** ... and a second session on 01-02. *)
Definition two_days_twice : Model.Collection :=
  <["s2b" := session_on 2024 1 2 18 45]> two_days.

(** Sessions on each of 2024-01-01 .. 01-05. *)
Definition five_days : Model.Collection :=
  list_to_map [("s1", session_on 2024 1 1 10 30);
               ("s2", session_on 2024 1 2 9 30);
               ("s3", session_on 2024 1 3 8 30);
               ("s4", session_on 2024 1 4 21 30);
               ("s5", session_on 2024 1 5 7 30)].

(** Two sessions on 2024-01-01, of 30 and 45 minutes. *)
Definition same_day : Model.Collection :=
  list_to_map [("s1", session_on 2024 1 1 10 30);
               ("s1b", session_on 2024 1 1 19 45)].

(** The same two sessions in the flat file, owned by user ["1700000000000"]. *)
Definition flat_user : JSObject :=
  list_to_map [("id", VStr "1700000000000"); ("name", VStr "Ana");
               ("email", VStr "ana@example.org"); ("token", VStr "t0k3n")].

Definition flat_session (id date : string) (minutes : Z) : JSObject :=
  list_to_map [("userId", VStr "1700000000000"); ("date", VStr date);
               ("duration", VNum minutes); ("notes", VStr "");
               ("id", VStr id); ("createdAt", VStr "2024-01-01T10:00:00.000Z")].

Definition same_day_flat : Database.DB :=
  Database.mkDB [flat_user]
                [flat_session "1704103200000" "2024-01-01" 30;
                 flat_session "1704135600000" "2024-01-01" 45].

(** A second user, and a file in which each user owns one session. *)
Definition other_user : JSObject :=
  list_to_map [("id", VStr "1700000000001"); ("name", VStr "Bo");
               ("email", VStr "bo@example.org"); ("token", VStr "s3cr3t")].

Definition other_session : JSObject :=
  list_to_map [("userId", VStr "1700000000001"); ("date", VStr "2024-01-02");
               ("duration", VNum 60); ("notes", VStr "algebra");
               ("id", VStr "1704186000000"); ("createdAt", VStr "2024-01-02T09:00:00.000Z")].

Definition shared_flat : Database.DB :=
  Database.mkDB [flat_user; other_user]
                [flat_session "1704103200000" "2024-01-01" 30; other_session].

Definition a_clock : Database.Clock :=
  Database.mkClock "1704300000000" "2024-01-03T16:40:00.000Z".

(** A stand-in for [parseInt] on the bodies of the scenarios, whose
    durations are integers below 1e21 and so are returned as they are. It
    is not [parseInt] on the other values (a string of digits, a larger
    number), which it maps like NaN; the scenarios do not use them. *)
Definition parseInt_numbers (v : JSValue) : JSValue :=
  match v with VNum n => VNum n | _ => VNull end.

End Scenarios.

(** ** Flat-file variant: the authentication handlers of [server.js] *)

Module Auth.
Import Database Server.

(** [data] of the register and login answers:
    [{ user: { id, name, email }, token }]. *)
Record AuthData := mkAuthData {
  a_id : option JSValue;
  a_name : option JSValue;
  a_email : option JSValue;
  a_token : option JSValue
}.

Definition auth_data (u : JSObject) : AuthData :=
  mkAuthData (u !! "id") (u !! "name") (u !! "email") (u !! "token").

Section Handlers.
(** [hashPassword] on a string: the SHA-256 digest in hexadecimal. On a
    value that is not a string [hash.update] throws, which the handlers
    answer with 500. *)
Variable hashPassword : string → string.

(** [POST /api/auth/register]; [token] is the draw of [generateToken()]. *)
Definition register (data : DB) (body : JSObject) (token : string) (clock : Clock)
    : Response AuthData * DB :=
  let name := body !! "name" in
  let email := body !! "email" in
  let password := body !! "password" in
  if negb (truthy name) || negb (truthy email) || negb (truthy password) then
    (Failure 400 "Name, email, and password are required", data)
  else
    match userDB.getByEmail data email with
    | Some _ => (Failure 400 "User with this email already exists", data)
    | None =>
      match password with
      | Some (VStr pw) =>
        let newUser :=
          set_prop "name" name
            (set_prop "email" email
              (set_prop "password" (Some (VStr (hashPassword pw)))
                (set_prop "token" (Some (VStr token)) ∅))) in
        let '(createdUser, data') := userDB.create data newUser clock in
        (Success 201 (auth_data createdUser), data')
      | _ => (Failure 500 "Internal server error", data)
      end
    end.

(** [POST /api/auth/login]; [token] is the draw of [generateToken()]. *)
Definition login (data : DB) (body : JSObject) (token : string) (clock : Clock)
    : Response AuthData * DB :=
  let email := body !! "email" in
  let password := body !! "password" in
  if negb (truthy email) || negb (truthy password) then
    (Failure 400 "Email and password are required", data)
  else
    match userDB.getByEmail data email with
    | None => (Failure 401 "Invalid email or password", data)
    | Some user =>
      match password with
      | Some (VStr pw) =>
        if decide (user !! "password" ≠ Some (VStr (hashPassword pw))) then
          (Failure 401 "Invalid email or password", data)
        else
          match userDB.update data (user !! "id") {[ "token" := VStr token ]} clock with
          | (Some updatedUser, data') => (Success 200 (auth_data updatedUser), data')
          | (None, data') => (Failure 500 "Internal server error", data')
          end
      | _ => (Failure 500 "Internal server error", data)
      end
    end.

(** [GET /api/auth/me], behind [verifyToken]. *)
Definition me (data : DB) (token : option string) : Response AuthData :=
  match verifyToken data token with
  | Failure st e => Failure st e
  | Success _ req_user =>
    Success 200 (mkAuthData (req_user !! "id") (req_user !! "name")
                            (req_user !! "email") None)
  end.

End Handlers.

(** Whether a property holds a string. *)
Definition is_string (v : option JSValue) : bool :=
  match v with Some (VStr _) => true | _ => false end.

(** The user written back by a login: the stored user with the new token
    and the time of the update. *)
Definition relogged (u : JSObject) (token : string) (clock : Clock) : JSObject :=
  <["updatedAt" := VStr (now_iso clock)]> (spread u {[ "token" := VStr token ]}).

End Auth.

(** ** Document-database variant: reading one session *)

Module Queries.
Import Model Controller.

(** [getStudySessionById] for the object id [id] that [req.params.id]
    was cast to: [findOne({ _id: id, user: req.user._id })]. *)
Definition getStudySessionById (coll : Collection) (req_user : ObjectId)
    (id : ObjectId) : Response StudySession :=
  match findOne coll id req_user with
  | None => Failure 404 "Study session not found"
  | Some studySession => Success 200 studySession
  end.

End Queries.

(** ** Document-database variant: the handlers on the route parameter *)

Module Routes.
Import Model.

Section Cast.
(** The cast of the route parameter [req.params.id] to an object id,
    which the query applies to its filter; [None] when the string is no
    object id. The query then throws a [CastError], which is no
    [ValidationError], and the [catch] of the handler answers 500. *)
Variable castObjectId : string → option ObjectId.
Variable trim : string → string.

(** [getStudySessionById] *)
Definition getStudySessionById (coll : Collection) (req_user : ObjectId)
    (req_params_id : string) : Response StudySession :=
  match castObjectId req_params_id with
  | None => Failure 500 "Server error"
  | Some id => Queries.getStudySessionById coll req_user id
  end.

(** [updateStudySession] *)
Definition updateStudySession (coll : Collection) (req_user : ObjectId)
    (req_params_id : string) (body : Controller.Body)
    : Response StudySession * Collection :=
  match castObjectId req_params_id with
  | None => (Failure 500 "Server error", coll)
  | Some id => Controller.updateStudySession trim coll req_user id body
  end.

(** [deleteStudySession] *)
Definition deleteStudySession (coll : Collection) (req_user : ObjectId)
    (req_params_id : string) : Response unit * Collection :=
  match castObjectId req_params_id with
  | None => (Failure 500 "Server error", coll)
  | Some id => Controller.deleteStudySession coll req_user id
  end.

(** The three mutating routes as one step on the collection. *)
Inductive Request : Type :=
| Create (body : Controller.Body) (now : Z) (newId : ObjectId)
| Update (req_params_id : string) (body : Controller.Body)
| Delete (req_params_id : string).

Definition handle (coll : Collection) (req_user : ObjectId) (req : Request)
    : Response (option StudySession) * Collection :=
  match req with
  | Create body now newId =>
    match Controller.createStudySession trim coll req_user body now newId with
    | (Success st s, coll') => (Success st (Some s), coll')
    | (Failure st e, coll') => (Failure st e, coll')
    end
  | Update req_params_id body =>
    match updateStudySession coll req_user req_params_id body with
    | (Success st s, coll') => (Success st (Some s), coll')
    | (Failure st e, coll') => (Failure st e, coll')
    end
  | Delete req_params_id =>
    match deleteStudySession coll req_user req_params_id with
    | (Success st _, coll') => (Success st None, coll')
    | (Failure st e, coll') => (Failure st e, coll')
    end
  end.

End Cast.

End Routes.

(** ** Invariants of the stores *)

Module Invariants.
Import Database.

(** Every document of the collection passes the validators of the schema. *)
Definition schema_valid (coll : Model.Collection) : Prop :=
  ∀ id s, coll !! id = Some s → Controller.validate s = true.

(** No session of the file carries the id [id]. *)
Definition session_id_fresh (data : DB) (id : option JSValue) : Prop :=
  ∀ s, s ∈ studySessions data → s !! "id" ≠ id.

(** No user of the file carries the id [id]. *)
Definition user_id_fresh (data : DB) (id : option JSValue) : Prop :=
  ∀ u, u ∈ users data → u !! "id" ≠ id.

(** No user of the file carries the token [token]. *)
Definition token_fresh (data : DB) (token : string) : Prop :=
  ∀ u, u ∈ users data → u !! "token" ≠ Some (VStr token).

(** The sessions of [userId] hold a number between [lo] and [hi] as their
    duration. *)
Definition durations_within (lo hi : Z) (sessions : list JSObject) : Prop :=
  Forall (λ s, ∃ n, s !! "duration" = Some (VNum n) ∧ lo ≤ n ≤ hi) sessions.

(** The sessions of the file carry pairwise different ids. *)
Definition session_ids_unique (data : DB) : Prop :=
  NoDup ((λ s : JSObject, s !! "id") <$> studySessions data).

(** The users of the file carry pairwise different ids. *)
Definition user_ids_unique (data : DB) : Prop :=
  NoDup ((λ u : JSObject, u !! "id") <$> users data).

(** The users of the file carry pairwise different e-mail addresses. *)
Definition emails_unique (data : DB) : Prop :=
  NoDup ((λ u : JSObject, u !! "email") <$> users data).

End Invariants.

(** ** Scenarios of the authentication handlers *)

Module AuthScenarios.
Import Database.

(** A stand-in for the digest: the password behind a fixed prefix. *)
Definition hash_tagged (password : string) : string := "sha256:" +:+ password.

Definition ana : JSObject :=
  list_to_map [("id", VStr "1700000000000"); ("name", VStr "Ana");
               ("email", VStr "ana@example.org");
               ("password", VStr "sha256:pw-ana"); ("token", VStr "t0k3n")].

Definition bo : JSObject :=
  list_to_map [("id", VStr "1700000000001"); ("name", VStr "Bo");
               ("email", VStr "bo@example.org");
               ("password", VStr "sha256:pw-bo"); ("token", VStr "s3cr3t")].

Definition auth_db : DB := mkDB [ana; bo] [].

Definition register_cy : JSObject :=
  list_to_map [("name", VStr "Cy"); ("email", VStr "cy@example.org");
               ("password", VStr "pw-cy")].

Definition login_cy : JSObject :=
  list_to_map [("email", VStr "cy@example.org"); ("password", VStr "pw-cy")].

Definition login_ana : JSObject :=
  list_to_map [("email", VStr "ana@example.org"); ("password", VStr "pw-ana")].

Definition clock_cy : Clock := mkClock "1704300000000" "2024-01-03T16:40:00.000Z".

Definition clock_later : Clock := mkClock "1704303600000" "2024-01-03T17:40:00.000Z".

End AuthScenarios.

(** ** Scenarios of the document-database controller *)

#[global] Instance StudySession_eq_dec : EqDecision Model.StudySession.
Proof. solve_decision. Defined.

#[global] Instance Response_eq_dec {A} `{EqDecision A} : EqDecision (Response A).
Proof. solve_decision. Defined.

Module ControllerScenarios.
Import JSDate.

(** The sessions of [Scenarios.three_days] under other ids. *)
Definition three_days_shuffled : Model.Collection :=
  list_to_map [("z9", Scenarios.session_on 2024 1 2 9 30);
               ("a0", Scenarios.session_on 2024 1 3 8 30);
               ("m5", Scenarios.session_on 2024 1 1 10 30)].

(** A body for a session of 50 minutes on 2024-01-04, and the document it
    makes for user ["u1"]. *)
Definition algebra_body : Controller.Body :=
  Controller.mkBody (Some (Controller.DateString (at_time 2024 1 4 9 0))) (Some 50)
                    (Some "Algebra")
                    None None (Some (Some 4)).

Definition algebra_doc : Model.StudySession :=
  Model.mkStudySession "u1" (at_time 2024 1 4 9 0) 50 "Algebra" None [] true (Some 4).

Definition empty_body : Controller.Body :=
  Controller.mkBody None None None None None None.

(** A cast for the scenarios: a string of 24 hexadecimal digits is the
    object id with these digits, written in lower case; no other string
    is an object id. (A driver that also takes the strings of 12
    characters differs on those; the scenarios do not use them.) *)
Definition hex_digit (c : Ascii.ascii) : option Ascii.ascii :=
  let n := Ascii.nat_of_ascii c in
  if ((48 <=? n) && (n <=? 57) || (97 <=? n) && (n <=? 102))%nat then Some c
  else if ((65 <=? n) && (n <=? 70))%nat then Some (Ascii.ascii_of_nat (n + 32))
  else None.

Definition cast_hex24 (s : string) : option Model.ObjectId :=
  if (String.length s =? 24)%nat then
    String.string_of_list_ascii <$> mapM hex_digit (String.list_ascii_of_string s)
  else None.

(** Two sessions of user ["u1"] under object ids. *)
Definition hex_days : Model.Collection :=
  list_to_map [("65a1f00000000000000000a1", Scenarios.session_on 2024 1 1 10 30);
               ("65a1f00000000000000000a2", Scenarios.session_on 2024 1 2 9 30)].

End ControllerScenarios.

(** * Properties *)

(** ** Dates *)

Section DateFacts.
Import JSDate.

Lemma setHours0_addDays t n : setHours0 (addDays t n) = addDays (setHours0 t) n.
Proof.
  unfold setHours0, addDays, MS_PER_DAY.
  rewrite Z.div_add by lia. lia.
Qed.

Lemma setHours0_bounds t : setHours0 t ≤ t < setHours0 t + MS_PER_DAY.
Proof.
  unfold setHours0, MS_PER_DAY.
  pose proof (Z.mod_pos_bound t 86400000 ltac:(lia)).
  pose proof (Z.div_mod t 86400000 ltac:(lia)). lia.
Qed.

End DateFacts.

(** ** The streak walk *)

Section StreakFacts.
Import JSDate Model.

Lemma streak_step_counters_ok currentDate i d v :
  counters_ok v → counters_ok (streak_step currentDate i d v).
Proof.
  unfold counters_ok, streak_step. intros Hv.
  destruct (_ =? _); simpl; [destruct (Nat.eqb i 0)|]; lia.
Qed.

Lemma streak_loop_counters_ok currentDate dates :
  ∀ i v, counters_ok v → counters_ok (streak_loop currentDate i dates v).
Proof.
  induction dates as [|d rest IH]; intros i v Hv; simpl; [done|].
  apply IH, streak_step_counters_ok, Hv.
Qed.

(** Past index 0 the loop never assigns [currentStreak]. *)
Lemma streak_step_current_later currentDate i d v :
  v_current (streak_step currentDate (S i) d v) = v_current v.
Proof. unfold streak_step. by destruct (_ =? _). Qed.

Lemma streak_loop_current_later currentDate dates :
  ∀ i v, v_current (streak_loop currentDate (S i) dates v) = v_current v.
Proof.
  induction dates as [|d rest IH]; intros i v; simpl; [done|].
  by rewrite IH, streak_step_current_later.
Qed.

(** [currentStreak] is decided by the first date alone. *)
Lemma currentStreak_first_date d rest now :
  currentStreak (streak_of_dates (d :: rest) now) =
  if setHours0 d =? setHours0 (anchor (d :: rest) now) then 1%nat else 0%nat.
Proof.
  unfold streak_of_dates. cbn [currentStreak streak_loop].
  rewrite streak_loop_current_later. unfold streak_step.
  replace (addDays (anchor (d :: rest) now) (- Z.of_nat 0))
    with (anchor (d :: rest) now) by (unfold addDays; simpl; lia).
  by destruct (_ =? _).
Qed.

Lemma currentStreak_at_most_one coll userId now :
  (currentStreak (getUserStreak coll userId now) ≤ 1)%nat.
Proof.
  unfold getUserStreak.
  destruct (sort_date_desc (find_user coll userId)) as [|d rest]; [simpl; lia|].
  rewrite currentStreak_first_date. destruct (_ =? _); lia.
Qed.

Lemma hasSessionToday_spec dates now :
  hasSessionToday dates now = true ↔
  ∃ d, d ∈ dates ∧ setHours0 d = setHours0 now.
Proof.
  unfold hasSessionToday. rewrite existsb_exists. split.
  - intros (d & Hin & Heq). exists d. split; [by apply list_elem_of_In|lia].
  - intros (d & Hin & Heq). exists d. split; [by apply list_elem_of_In|lia].
Qed.

(** The anchor is today's calendar date when a session falls on it, and
    yesterday's otherwise. *)
Lemma anchor_rule dates now :
  setHours0 (anchor dates now) =
  if hasSessionToday dates now then setHours0 now
  else setHours0 now - MS_PER_DAY.
Proof.
  unfold anchor. destruct (hasSessionToday dates now); [done|].
  rewrite setHours0_addDays. unfold addDays. lia.
Qed.

End StreakFacts.

(** ** Streak scenarios and invariants *)

Section StreakClaims.
Import JSDate Model Scenarios.

(** C1. A run of consecutive days ending at the anchor is meant to give
    [currentStreak] its length. For the sessions of 2024-01-01, 01-02 and
    01-03 read on 2024-01-03 the walk matches all three days
    ([maxStreak = 3]), but [currentStreak] is assigned at index 0 only,
    so the function returns [currentStreak = 1], not 3. *)
Theorem three_day_run_streak :
  getUserStreak three_days "u1" (at_time 2024 1 3 20 0) = mkStreak 1 3.
Proof. vm_compute. reflexivity. Qed.

(** C2. [maxStreak] is meant to be the longest run of consecutive
    calendar days anywhere in the history. For sessions on 2024-01-01,
    01-02 and 01-05 read on 2024-01-05 the expected date of position [i]
    stays [anchor - i] after the gap, so the two-day run of 01-01 and
    01-02 is never matched: the function returns [maxStreak = 1], not 2. *)
Theorem gap_history_streak :
  getUserStreak gap_history "u1" (at_time 2024 1 5 20 0) = mkStreak 1 1.
Proof. vm_compute. reflexivity. Qed.

(** C3. A day with two sessions is meant to count once in the streak and
    twice in the totals. The totals do count both sessions (2 sessions,
    75 minutes, in both variants), but the walk has one position per
    session: with sessions on 2024-01-01 and 01-02 the longest run found
    is 2, and a second session on 01-02 shifts every later position and
    brings it down to 1. *)
Theorem second_session_same_day_streak :
  getUserStreak two_days "u1" (at_time 2024 1 2 20 0) = mkStreak 1 2 ∧
  getUserStreak two_days_twice "u1" (at_time 2024 1 2 20 0) = mkStreak 1 1 ∧
  Server.get_stats same_day_flat flat_user
    = Success 200 (Server.mkStatsData 2 (Some 75) (Some 38)) ∧
  totalSessions (getUserStats same_day "u1" None None) = 2%nat ∧
  totalDuration (getUserStats same_day "u1" None None) = 75.
Proof. repeat split; vm_compute; reflexivity. Qed.

(** C4. With sessions on each of 2024-01-01 .. 01-05 and none on
    2024-01-06, a read on 01-06 anchors the walk on 01-05 and matches all
    five days, but returns [currentStreak = 1] (assigned at index 0 only),
    not 5. *)
Theorem five_day_run_yesterday_anchor :
  let dates := sort_date_desc (find_user five_days "u1") in
  let now := at_time 2024 1 6 7 0 in
  hasSessionToday dates now = false ∧
  setHours0 (anchor dates now) = at_time 2024 1 5 0 0 ∧
  getUserStreak five_days "u1" now = mkStreak 1 5.
Proof. repeat split; vm_compute; reflexivity. Qed.

(** C7. For every collection, owner and read time, the result of
    [getUserStreak] has [maxStreak >= currentStreak]. *)
Theorem maxStreak_ge_currentStreak (coll : Collection) (userId : ObjectId) (now : Z) :
  (currentStreak (getUserStreak coll userId now)
     ≤ maxStreak (getUserStreak coll userId now))%nat.
Proof.
  unfold getUserStreak, streak_of_dates.
  destruct (sort_date_desc (find_user coll userId)) as [|d rest] eqn:E; [done|].
  cbn [currentStreak maxStreak].
  apply streak_loop_counters_ok. unfold counters_ok. simpl. lia.
Qed.

End StreakClaims.

(** ** Totals and averages *)

Section TotalsFacts.
Import Model Database.


Lemma nearest_integer_unique a b q :
  nearest_integer a q → nearest_integer b q → a = b.
Proof.
  unfold nearest_integer. intros [Ha1 Ha2] [Hb1 Hb2].
  assert (inject_Z a < inject_Z b + 1)%Q as H1 by lra.
  assert (inject_Z b < inject_Z a + 1)%Q as H2 by lra.
  change 1%Q with (inject_Z 1) in H1, H2.
  rewrite <- inject_Z_plus in H1, H2.
  rewrite <- Zlt_Qlt in H1, H2. lia.
Qed.

(** [Math.round] of an exact quotient, in integer arithmetic. *)
Lemma Math_round_quot (t n : Z) :
  0 < n → Server.Math_round (Qc_of_Z t / Qc_of_Z n)%Qc = (2 * t + n) `div` (2 * n).
Proof.
  intros Hn. unfold Server.Math_round.
  assert ((Qc_of_Z t / Qc_of_Z n)%Qc + (1 # 2) == (2 * t + n) # Z.to_pos (2 * n))%Q as Eq.
  { unfold Qcdiv, Qcmult, Qcinv, Q2Qc. cbn [this].
    rewrite !Qred_correct.
    destruct n as [|n|n]; try lia.
    unfold Qeq, Qplus, Qmult, Qinv, inject_Z. simpl Qnum. simpl Qden.
    rewrite !Pos2Z.inj_mul. ring. }
  rewrite (Qfloor_comp _ _ Eq). unfold Qfloor.
  rewrite Z2Pos.id by lia. reflexivity.
Qed.

(** The rounded significand is within one half of the exact one. *)
Lemma round_half_even_spec (p d : Z) :
  0 < d →
  2 * p - d ≤ 2 * (Double.round_half_even p d * d) ≤ 2 * p + d.
Proof.
  intros Hd. unfold Double.round_half_even.
  pose proof (Z.div_mod p d ltac:(lia)) as E.
  pose proof (Z.mod_pos_bound p d Hd) as Hr.
  destruct (2 * (p `mod` d) <? d) eqn:H1; [apply Z.ltb_lt in H1; nia|].
  apply Z.ltb_ge in H1.
  destruct (d <? 2 * (p `mod` d)) eqn:H2; [apply Z.ltb_lt in H2; nia|].
  apply Z.ltb_ge in H2. destruct (Z.even _); nia.
Qed.

(** For a dividend below [2 ^ 52] the doubles around the quotient are at
    most one half apart, and closer to each other than [1 / n] unless the
    divisor is beyond every array length. *)
Lemma ulp_exponent_bounds (p n : Z) :
  1 ≤ p < 2 ^ 52 → 0 < n →
  let e := Double.ulp_exponent p n in
  e ≤ -1 ∧ (n < 2 ^ (- e) ∨ (2 ^ (- e) ≤ n ∧ 2 ^ 53 ≤ 2 ^ (- e))).
Proof.
  intros [Hp1 Hp2] Hn. unfold Double.ulp_exponent.
  assert (Z.log2 p < 52) as Hlp by (apply Z.log2_lt_pow2; lia).
  pose proof (Z.log2_nonneg p) as Hlp0.
  pose proof (Z.log2_nonneg n) as Hld0.
  pose proof (Z.log2_spec n Hn) as [Hn1 Hn2].
  clear Hp2.
  set (g := Z.log2 p - Z.log2 n).
  set (b := if _ <=? _ then g else g - 1).
  assert (b ≤ g) as Hb by (subst b; destruct (_ <=? _); lia).
  clearbody b. cbv zeta. split; [lia|].
  destruct (Z.le_gt_cases (-1074) (b - 52)) as [Hc|Hc].
  - left. rewrite Z.max_l by lia.
    eapply Z.lt_le_trans; [exact Hn2|].
    apply Z.pow_le_mono_r; lia.
  - rewrite Z.max_r by lia.
    destruct (Z.le_gt_cases 1074 (Z.log2 n)) as [Hl|Hl].
    + right. split; [|apply Z.pow_le_mono_r; lia].
      etrans; [|exact Hn1]. apply Z.pow_le_mono_r; lia.
    + left. eapply Z.lt_le_trans; [exact Hn2|]. apply Z.pow_le_mono_r; lia.
Qed.

(** Below [2 ^ 52] the rounding of the double quotient does not show
    after [Math.round]. *)
Lemma Math_round_div_exact (t n : Z) :
  Z.abs t < 2 ^ 52 → 0 < n →
  Server.Math_round (Double.div t n) = Server.Math_round (Qc_of_Z t / Qc_of_Z n)%Qc.
Proof.
  intros Ht Hn. rewrite (Math_round_quot t n Hn). unfold Double.div.
  destruct (t =? 0) eqn:E0.
  { apply Z.eqb_eq in E0 as ->. symmetry. change (Server.Math_round 0%Qc) with 0.
    apply Z.div_small. lia. }
  apply Z.eqb_neq in E0.
  destruct (ulp_exponent_bounds (Z.abs t) n ltac:(lia) Hn) as [He HK].
  set (e := Double.ulp_exponent (Z.abs t) n) in *. clearbody e.
  rewrite (Z.max_r 0 (- e)), (Z.max_l 0 e) by lia.
  rewrite Z.pow_0_r, !Z.mul_1_r.
  assert (∃ K', 2 ^ (- e) = 2 * K' ∧ 0 < K') as (K' & EK & HK').
  { exists (2 ^ (- e - 1)). split; [|apply Z.pow_pos_nonneg; lia].
    rewrite <- Z.pow_succ_r by lia. f_equal. lia. }
  set (K := 2 ^ (- e)) in *. clearbody K.
  pose proof (round_half_even_spec (t * K) n Hn) as [Hm1 Hm2].
  set (m := Double.round_half_even (t * K) n) in *. clearbody m.
  rewrite Math_round_quot by lia.
  pose proof (Z.div_mod (2 * t + n) (2 * n) ltac:(lia)) as Ea.
  pose proof (Z.mod_pos_bound (2 * t + n) (2 * n) ltac:(lia)) as Hr.
  set (a := (2 * t + n) `div` (2 * n)) in *. clearbody a.
  set (r := (2 * t + n) `mod` (2 * n)) in *. clearbody r.
  symmetry. apply (Z.div_unique _ _ _ (2 * m + K - 2 * K * a)); [|lia].
  left. split.
  - destruct (Z.le_gt_cases (K' * (2 * a - 1)) m) as [?|Hlt]; [lia|exfalso].
    assert (m * n ≤ (K' * (2 * a - 1) - 1) * n) as H1 by nia.
    assert ((2 * a - 1) * n ≤ 2 * t) as H2 by lia.
    assert (K' * ((2 * a - 1) * n) ≤ K' * (2 * t)) as H3 by nia.
    nia.
  - destruct (Z.le_gt_cases (K' * (2 * a + 1)) m) as [Hge|?]; [exfalso|lia].
    assert (K' * (2 * a + 1) * n ≤ m * n) as H1 by nia.
    assert (2 * t + 1 ≤ (2 * a + 1) * n) as H2 by lia.
    assert (K' * (2 * t + 1) ≤ K' * ((2 * a + 1) * n)) as H3 by nia.
    assert (K ≤ n) as HKn by nia.
    destruct HK as [?|[_ HKbig]]; [lia|].
    assert (a = 0) as -> by nia.
    assert (2 * (m * n) ≤ (2 * Z.abs t + 1) * n) as H4.
    { assert (t * K ≤ Z.abs t * n) by nia. lia. }
    assert (2 * m ≤ 2 * Z.abs t + 1) as H5 by nia.
    lia.
Qed.

(** Beyond that range it does: a total of [3 * 2 ^ 51 + 1] over three
    sessions has the nearest integer [2 ^ 51], and [Math.round] of the
    double quotient is one more. *)
Lemma Math_round_div_beyond_range :
  Server.Math_round (Double.div (3 * 2 ^ 51 + 1) 3) = 2 ^ 51 + 1 ∧
  Server.Math_round (Qc_of_Z (3 * 2 ^ 51 + 1) / Qc_of_Z 3)%Qc = 2 ^ 51.
Proof. split; vm_compute; reflexivity. Qed.

(** Every integer below [2 ^ 53] is a double, and beyond a sum is rounded:
    three times [2 ^ 53 + 2] add up to two more than the exact sum. *)
Lemma of_Z_small (z : Z) : Z.abs z < 2 ^ 53 → Double.of_Z z = Some z.
Proof.
  intros Hz. unfold Double.of_Z. apply Z.ltb_lt in Hz. by rewrite Hz.
Qed.

Lemma add_beyond_range :
  Double.add (2 * (2 ^ 53 + 2)) (2 ^ 53 + 2) = Some (3 * (2 ^ 53 + 2) + 2).
Proof. vm_compute. reflexivity. Qed.

(** A filter that is at least as selective as the owner filter finds
    nothing when the owner has no session. *)
Lemma filter_nil_of_owner_nil (P : StudySession → Prop) `{∀ s, Decision (P s)}
    (userId : ObjectId) (l : list StudySession) :
  (∀ s, P s → user s = userId) →
  filter (λ s, user s = userId) l = [] → filter P l = [].
Proof.
  intros HP. induction l as [|s l IH]; [done|].
  rewrite !filter_cons. destruct (decide (user s = userId)) as [Hu|Hu]; [done|].
  intros Hl. destruct (decide (P s)) as [Hs|Hs]; [by apply HP in Hs|by apply IH].
Qed.

Lemma getUserStats_no_session coll userId startDate endDate :
  find_user coll userId = [] →
  getUserStats coll userId startDate endDate = mkStats 0 0 0%Qc (Some 0%Qc).
Proof.
  intros Hnil. unfold getUserStats.
  rewrite (filter_nil_of_owner_nil _ userId); [done| |done].
  by intros s [Hu _].
Qed.

Lemma getUserStreak_no_session coll userId now :
  find_user coll userId = [] → getUserStreak coll userId now = mkStreak 0 0.
Proof. intros Hnil. unfold getUserStreak. by rewrite Hnil. Qed.

Lemma get_stats_no_session data req_user :
  sessionDB.getByUserId data (req_user !! "id") = [] →
  Server.get_stats data req_user = Success 200 (Server.mkStatsData 0 (Some 0) (Some 0)).
Proof. intros Hnil. unfold Server.get_stats. by rewrite Hnil. Qed.

Lemma controller_getUserStats_no_session coll userId startDate endDate now :
  find_user coll userId = [] →
  Controller.getUserStats coll userId startDate endDate now =
  Success 200 (Controller.mkStatsData (mkStats 0 0 0%Qc (Some 0%Qc)) (mkStreak 0 0) ∅).
Proof.
  intros Hnil. unfold Controller.getUserStats.
  rewrite getUserStats_no_session, getUserStreak_no_session by done.
  rewrite (filter_nil_of_owner_nil _ userId); [done| |done].
  by intros s [Hu _].
Qed.

End TotalsFacts.

Section TotalsClaims.
Import Model Database Scenarios.

(** C5. Every statistics request is answered (status 200, no fault), and
    for an owner without any session the answer is the all-zero result:
    no sessions, total 0, average 0, [currentStreak = 0], [maxStreak = 0],
    in both variants. *)
Theorem stats_total_and_zero_on_empty
    (coll : Collection) (userId : ObjectId) (startDate endDate : option Z) (now : Z)
    (data : DB) (req_user : JSObject) :
  ∃ d1 d2,
    Controller.getUserStats coll userId startDate endDate now = Success 200 d1 ∧
    Server.get_stats data req_user = Success 200 d2 ∧
    (find_user coll userId = [] →
       d1 = Controller.mkStatsData (mkStats 0 0 0%Qc (Some 0%Qc)) (mkStreak 0 0) ∅) ∧
    (sessionDB.getByUserId data (req_user !! "id") = [] →
       d2 = Server.mkStatsData 0 (Some 0) (Some 0)).
Proof.
  eexists _, _. split; [reflexivity|]. split; [reflexivity|]. split.
  - intros Hnil.
    pose proof (controller_getUserStats_no_session coll userId startDate endDate now Hnil) as E.
    unfold Controller.getUserStats in E. congruence.
  - intros Hnil. pose proof (get_stats_no_session data req_user Hnil) as E.
    unfold Server.get_stats in E. congruence.
Qed.

Lemma stats_total_and_zero_on_empty_witness :
  Controller.getUserStats ∅ "u1" None None (JSDate.at_time 2024 1 3 20 0) =
    Success 200 (Controller.mkStatsData (mkStats 0 0 0%Qc (Some 0%Qc)) (mkStreak 0 0) ∅) ∧
  Server.get_stats defaultData flat_user =
    Success 200 (Server.mkStatsData 0 (Some 0) (Some 0)).
Proof.
  destruct (stats_total_and_zero_on_empty ∅ "u1" None None
              (JSDate.at_time 2024 1 3 20 0) defaultData flat_user)
    as (d1 & d2 & E1 & E2 & Z1 & Z2).
  rewrite E1, E2, Z1, Z2; [done|reflexivity|reflexivity].
Defined.




(** C8. The streak of the statistics answer is the same for any two
    choices of the range filter (present or not): it is [getUserStreak] on
    the owner's whole history; only the totals see the filter. *)
Theorem streak_independent_of_range
    (coll : Collection) (userId : ObjectId)
    (startDate1 endDate1 startDate2 endDate2 : option Z) (now : Z) :
  ∃ d1 d2,
    Controller.getUserStats coll userId startDate1 endDate1 now = Success 200 d1 ∧
    Controller.getUserStats coll userId startDate2 endDate2 now = Success 200 d2 ∧
    Controller.streak d1 = Controller.streak d2 ∧
    Controller.streak d1 =
      streak_of_dates (sort_date_desc (find_user coll userId)) now ∧
    Controller.stats d1 = getUserStats coll userId startDate1 endDate1 ∧
    Controller.stats d2 = getUserStats coll userId startDate2 endDate2.
Proof. eexists _, _. repeat split. Qed.

(** The range does restrict the totals: of the three sessions of
    2024-01-01 .. 01-03, the window of 01-02 keeps one. *)
Lemma range_restricts_totals :
  totalSessions (getUserStats three_days "u1" None None) = 3%nat ∧
  totalSessions (getUserStats three_days "u1"
                   (Some (JSDate.at_time 2024 1 2 0 0))
                   (Some (JSDate.at_time 2024 1 2 23 59))) = 1%nat.
Proof. split; vm_compute; reflexivity. Qed.

End TotalsClaims.

(** ** Ownership and frame of the mutating operations *)

Section ListFacts.
Context {A : Type} (P : A → Prop) `{∀ x, Decision (P x)}.

Lemma filter_insert_outside (l : list A) (i : nat) (x y : A) :
  l !! i = Some x → ¬ P x → ¬ P y → filter P (<[i := y]> l) = filter P l.
Proof.
  revert i. induction l as [|z l IH]; intros [|i] Hi Hx Hy; simplify_eq/=.
  - by rewrite !filter_cons, !decide_False.
  - rewrite !filter_cons. by rewrite (IH i).
Qed.

Lemma filter_delete_outside (l : list A) (i : nat) (x : A) :
  l !! i = Some x → ¬ P x → filter P (delete i l) = filter P l.
Proof.
  revert i. induction l as [|z l IH]; intros [|i] Hi Hx; simplify_eq/=.
  - by rewrite filter_cons, decide_False.
  - rewrite !filter_cons. by rewrite (IH i).
Qed.

Lemma filter_snoc_outside (l : list A) (y : A) :
  ¬ P y → filter P (l ++ [y]) = filter P l.
Proof.
  intros Hy. rewrite filter_app, filter_cons, decide_False by done.
  by rewrite filter_nil, app_nil_r.
Qed.

End ListFacts.

Section FlatFacts.
Import Database Server.
Variable parseInt : JSValue → JSValue.

(** [findIndex] and [find] with the same test land on the same element. *)
Lemma getById_findIndex data id session :
  sessionDB.getById data id = Some session →
  ∃ i, findIndex_id (studySessions data) id = Some (i, session).
Proof.
  unfold sessionDB.getById. destruct (findIndex_id _ _) as [[i x]|]; [|done].
  intros [= ->]. by exists i.
Qed.

Lemma findIndex_id_Some arr id i x :
  findIndex_id arr id = Some (i, x) → arr !! i = Some x ∧ x !! "id" = id.
Proof. unfold findIndex_id. intros (? & ? & _)%list_find_Some. done. Qed.

(** What the [updates] object of the PUT handler can hold. *)
Lemma put_updates_lookup body k v :
  put_updates parseInt body !! k = Some v →
  (k = "date" ∧ truthy (body !! "date") = true ∧ body !! "date" = Some v) ∨
  (k = "duration" ∧ truthy (body !! "duration") = true ∧
     ∃ d, body !! "duration" = Some d ∧ v = parseInt d) ∨
  (k = "notes" ∧ body !! "notes" = Some v).
Proof.
  unfold put_updates, set_prop. intros Hk.
  destruct (truthy (body !! "date")) eqn:Td, (truthy (body !! "duration")) eqn:Tu;
    destruct (body !! "date") as [dt|], (body !! "duration") as [du|],
             (body !! "notes") as [nt|];
    cbn [fmap option_fmap option_map] in Hk;
    repeat (apply lookup_insert_Some in Hk as [[<- <-]|[_ Hk]]; [by eauto 10|]);
    by rewrite lookup_empty in Hk.
Qed.

Lemma put_updates_absent body k :
  body !! k = None → put_updates parseInt body !! k = None.
Proof.
  intros Hk. destruct (put_updates parseInt body !! k) as [v|] eqn:E; [|done].
  apply put_updates_lookup in E as [(-> & _ & E)|[(-> & _ & d & E & _)|(-> & E)]];
    congruence.
Qed.

Lemma put_updates_other_key body k :
  k ≠ "date" → k ≠ "duration" → k ≠ "notes" → put_updates parseInt body !! k = None.
Proof.
  intros Hd Hu Hn. destruct (put_updates parseInt body !! k) as [v|] eqn:E; [|done].
  apply put_updates_lookup in E as [(-> & _)|[(-> & _)|(-> & _)]]; done.
Qed.

(** The session written by [sessionDB.update]. *)
Lemma sessionDB_update_spec data id updates clock r data' :
  sessionDB.update data id updates clock = (r, data') →
  (r = None ∧ data' = data ∧ findIndex_id (studySessions data) id = None) ∨
  (∃ i session,
     findIndex_id (studySessions data) id = Some (i, session) ∧
     let session' := <["updatedAt" := VStr (now_iso clock)]> (spread session updates) in
     r = Some session' ∧
     data' = mkDB (users data) (<[i := session']> (studySessions data))).
Proof.
  unfold sessionDB.update.
  destruct (findIndex_id _ _) as [[i session]|] eqn:E; intros [= <- <-].
  - right. by exists i, session.
  - by left.
Qed.

(** A property that [updates] does not carry keeps its value. *)
Lemma updated_lookup_frame (session updates : JSObject) (t : JSValue) k :
  k ≠ "updatedAt" → updates !! k = None →
  (<["updatedAt" := t]> (spread session updates)) !! k = session !! k.
Proof.
  intros Hk Hu. rewrite lookup_insert_ne by done.
  unfold spread. by rewrite lookup_union_r.
Qed.

(** A property that [updates] carries takes that value. *)
Lemma updated_lookup_set (session updates : JSObject) (t : JSValue) k v :
  k ≠ "updatedAt" → updates !! k = Some v →
  (<["updatedAt" := t]> (spread session updates)) !! k = Some v.
Proof.
  intros Hk Hu. rewrite lookup_insert_ne by done.
  unfold spread. by apply lookup_union_Some_l.
Qed.

(** The session appended by the POST handler belongs to the caller,
    whatever the body holds. *)
Lemma created_session_owner (uid d du n : option JSValue) (i c : JSValue) :
  (<["createdAt" := c]>
     (<["id" := i]>
        (set_prop "userId" uid
           (set_prop "date" d (set_prop "duration" du (set_prop "notes" n ∅))))))
    !! "userId" = uid.
Proof. destruct uid, d, du, n; unfold set_prop; by simplify_map_eq. Qed.

Lemma flat_handle_owner data req_user req clock resp data' :
  handle parseInt data req_user req clock = (resp, data') →
  foreign req_user (studySessions data') = foreign req_user (studySessions data) ∧
  users data' = users data ∧
  match req with
  | POST_session body =>
    ∀ st s, resp = Success st s →
      ∃ session, s = Some session ∧ session !! "userId" = req_user !! "id" ∧
                 studySessions data' = studySessions data ++ [session]
  | PUT_session id _ | DELETE_session id =>
    (∀ session, sessionDB.getById data (Some (VStr id)) = Some session →
                session !! "userId" ≠ req_user !! "id") →
    resp = Failure 404 "Study session not found" ∧ data' = data
  end.
Proof.
  destruct req as [body|id body|id]; unfold handle.
  - unfold post_session. destruct (negb _ || negb _).
    + intros [= <- <-]. by repeat split.
    + unfold sessionDB.create. intros [= <- <-]. cbn [studySessions users].
      split; [|split; [done|]].
      * apply filter_snoc_outside. intros Hne. apply Hne, created_session_owner.
      * intros st s [= <- <-]. eexists. split; [done|]. split; [|done].
        apply created_session_owner.
  - unfold put_session.
    destruct (sessionDB.getById data (Some (VStr id))) as [session|] eqn:G;
      [|intros [= <- <-]; by repeat split].
    destruct (decide (session !! "userId" ≠ req_user !! "id")) as [Hne|Heq];
      [intros [= <- <-]; by repeat split|].
    apply dec_stable in Heq.
    destruct (getById_findIndex _ _ _ G) as [i Hi].
    unfold sessionDB.update. rewrite Hi. intros [= <- <-]. cbn [studySessions users].
    apply findIndex_id_Some in Hi as [Hi _].
    split; [|split; [done|]].
    + apply (filter_insert_outside _ _ _ session); [done|by intros Hne|].
      intros Hne. apply Hne. rewrite updated_lookup_frame; [done|done|].
      by apply put_updates_other_key.
    + intros Hall. by destruct (Hall session).
  - unfold delete_session.
    destruct (sessionDB.getById data (Some (VStr id))) as [session|] eqn:G;
      [|intros [= <- <-]; by repeat split].
    destruct (decide (session !! "userId" ≠ req_user !! "id")) as [Hne|Heq];
      [intros [= <- <-]; by repeat split|].
    apply dec_stable in Heq.
    destruct (getById_findIndex _ _ _ G) as [i Hi].
    unfold sessionDB.delete. rewrite Hi. intros [= <- <-]. cbn [studySessions users].
    apply findIndex_id_Some in Hi as [Hi _].
    split; [|split; [done|]].
    + apply (filter_delete_outside _ _ _ session); [done|by intros Hne].
    + intros Hall. by destruct (Hall session).
Qed.

End FlatFacts.

Section MongoFacts.
Import Model Controller.
Variable trim : string → string.

Lemma findOne_Some coll id req_user s :
  findOne coll id req_user = Some s ↔ coll !! id = Some s ∧ user s = req_user.
Proof.
  unfold findOne. destruct (coll !! id) as [x|]; simpl.
  - case_guard; simpl; split.
    + by intros [= <-].
    + by intros [[= <-] _].
    + done.
    + intros [[= <-] Hu]. done.
  - split; [done|]. by intros [? _].
Qed.

Lemma foreign_unchanged_refl req_user coll : foreign_unchanged req_user coll coll.
Proof. by intros id s _. Qed.

(** Writing a document of [req_user] over a slot that was free or held a
    document of [req_user] leaves the other owners' documents alone. *)
Lemma foreign_unchanged_insert req_user (coll : Collection) id doc :
  user doc = req_user →
  (∀ s, coll !! id = Some s → user s = req_user) →
  foreign_unchanged req_user coll (<[id := doc]> coll).
Proof.
  intros Hdoc Hold id' s Hs. destruct (decide (id = id')) as [<-|Hne].
  - rewrite lookup_insert_eq. split.
    + intros [= <-]. done.
    + intros Hc. by apply Hold in Hc.
  - by rewrite lookup_insert_ne.
Qed.

Lemma foreign_unchanged_delete req_user (coll : Collection) id :
  (∀ s, coll !! id = Some s → user s = req_user) →
  foreign_unchanged req_user coll (delete id coll).
Proof.
  intros Hold id' s Hs. destruct (decide (id = id')) as [<-|Hne].
  - rewrite lookup_delete_eq. split; [done|]. intros Hc. by apply Hold in Hc.
  - by rewrite lookup_delete_ne.
Qed.

Lemma mongo_handle_owner coll req_user req resp coll' :
  handle trim coll req_user req = (resp, coll') →
  foreign_unchanged req_user coll coll' ∧
  match req with
  | Create _ _ _ =>
    ∀ st s, resp = Success st s → ∃ doc, s = Some doc ∧ user doc = req_user
  | Update id _ | Delete id =>
    (∀ s, coll !! id = Some s → user s ≠ req_user) →
    resp = Failure 404 "Study session not found" ∧ coll' = coll
  end.
Proof.
  destruct req as [body now newId|id body|id]; unfold handle.
  - unfold createStudySession.
    destruct (b_duration body) as [d|];
      [|intros [= <- <-]; split; [apply foreign_unchanged_refl|done]].
    destruct (validate _);
      [|intros [= <- <-]; split; [apply foreign_unchanged_refl|done]].
    destruct (coll !! newId) eqn:Hnew;
      intros [= <- <-]; (split; [|try done]).
    + apply foreign_unchanged_refl.
    + apply foreign_unchanged_insert; [done|]. intros s. by rewrite Hnew.
    + intros st s [= <- <-]. by eexists.
  - unfold updateStudySession.
    destruct (findOne coll id req_user) as [s0|] eqn:F.
    + apply findOne_Some in F as [Hs0 Hu].
      destruct (validate _); intros [= <- <-]; split.
      * apply foreign_unchanged_insert; [done|]. intros s. rewrite Hs0. by intros [= <-].
      * intros Hall. by destruct (Hall s0).
      * apply foreign_unchanged_refl.
      * intros Hall. by destruct (Hall s0).
    + intros [= <- <-]. split; [apply foreign_unchanged_refl|done].
  - unfold deleteStudySession.
    destruct (findOne coll id req_user) as [s0|] eqn:F.
    + apply findOne_Some in F as [Hs0 Hu]. intros [= <- <-]. split.
      * apply foreign_unchanged_delete. intros s. rewrite Hs0. by intros [= <-].
      * intros Hall. by destruct (Hall s0).
    + intros [= <- <-]. split; [apply foreign_unchanged_refl|done].
Qed.

(** The same with the cast of the route parameter in front: a parameter
    that is no object id is answered 500 before the store is looked at. *)
Lemma routes_handle_owner castObjectId coll req_user req resp coll' :
  Routes.handle castObjectId trim coll req_user req = (resp, coll') →
  foreign_unchanged req_user coll coll' ∧
  match req with
  | Routes.Create _ _ _ =>
    ∀ st s, resp = Success st s → ∃ doc, s = Some doc ∧ user doc = req_user
  | Routes.Update req_params_id _ | Routes.Delete req_params_id =>
    match castObjectId req_params_id with
    | None => resp = Failure 500 "Server error" ∧ coll' = coll
    | Some id =>
      (∀ s, coll !! id = Some s → user s ≠ req_user) →
      resp = Failure 404 "Study session not found" ∧ coll' = coll
    end
  end.
Proof.
  destruct req as [body now newId|req_params_id body|req_params_id].
  - apply (mongo_handle_owner coll req_user (Create body now newId)).
  - unfold Routes.handle, Routes.updateStudySession.
    destruct (castObjectId req_params_id) as [id|].
    + apply (mongo_handle_owner coll req_user (Update id body)).
    + intros [= <- <-]. split; [apply foreign_unchanged_refl|done].
  - unfold Routes.handle, Routes.deleteStudySession.
    destruct (castObjectId req_params_id) as [id|].
    + apply (mongo_handle_owner coll req_user (Delete id)).
    + intros [= <- <-]. split; [apply foreign_unchanged_refl|done].
Qed.

End MongoFacts.

Section OwnershipClaims.
Import Database Scenarios ControllerScenarios.

(** A request without a valid token is answered 401 and leaves the file
    as it is; any other request runs the handler for the user who holds
    the token. *)
Lemma route_authenticates parseInt data token req clock :
  (∃ e, Server.route parseInt data token req clock = (Failure 401 e, data)) ∨
  (∃ req_user, req_user ∈ users data ∧
     Server.route parseInt data token req clock
       = Server.handle parseInt data req_user req clock).
Proof.
  unfold Server.route, Server.verifyToken.
  destruct token as [t|]; [|left; by eexists].
  destruct (String.eqb t ""); [left; by eexists|].
  destruct (list_find _ _) as [[i u]|] eqn:E; [|left; by eexists].
  right. exists u. split; [|done].
  apply list_find_Some in E as (E & _). by eapply list_elem_of_lookup_2.
Qed.

(** C9, as stated (an update or delete whose target does not exist is
    answered "not found"), fails in the document-database variant for a
    route parameter that is no object id: no session has that id, and the
    update and the delete are answered 500, not 404. *)
Lemma malformed_id_answered_500 :
  let resp_update :=
    Routes.updateStudySession cast_hex24 id hex_days "u1" "not-an-object-id" empty_body in
  let resp_delete :=
    Routes.deleteStudySession cast_hex24 hex_days "u1" "not-an-object-id" in
  hex_days !! "not-an-object-id" = None ∧
  resp_update = (Failure 500 "Server error", hex_days) ∧
  resp_delete = (Failure 500 "Server error", hex_days) ∧
  status_of resp_update.1 ≠ 404%nat ∧ status_of resp_delete.1 ≠ 404%nat.
Proof. cbv zeta. repeat split; try done; vm_compute; congruence. Qed.

(** C9, amended. In both variants: a created session is owned by the
    authenticated caller whatever the body holds; an update or delete whose
    target does not exist or belongs to another user leaves the store
    unchanged and is answered "not found" (404), except that in the
    document-database variant a route parameter that is no object id is
    answered 500; and no create, update or delete changes, removes or adds
    a session of an owner other than the caller (nor, in the flat file, a
    user record). *)
Theorem ownership_enforced :
  (∀ parseInt data req_user req clock resp data',
     Server.handle parseInt data req_user req clock = (resp, data') →
     Server.foreign req_user (studySessions data')
       = Server.foreign req_user (studySessions data) ∧
     users data' = users data ∧
     match req with
     | Server.POST_session body =>
       ∀ st s, resp = Success st s →
         ∃ session, s = Some session ∧ session !! "userId" = req_user !! "id" ∧
                    studySessions data' = studySessions data ++ [session]
     | Server.PUT_session id _ | Server.DELETE_session id =>
       (∀ session, sessionDB.getById data (Some (VStr id)) = Some session →
                   session !! "userId" ≠ req_user !! "id") →
       resp = Failure 404 "Study session not found" ∧ data' = data
     end) ∧
  (∀ castObjectId trim coll req_user req resp coll',
     Routes.handle castObjectId trim coll req_user req = (resp, coll') →
     Controller.foreign_unchanged req_user coll coll' ∧
     match req with
     | Routes.Create _ _ _ =>
       ∀ st s, resp = Success st s → ∃ doc, s = Some doc ∧ Model.user doc = req_user
     | Routes.Update req_params_id _ | Routes.Delete req_params_id =>
       match castObjectId req_params_id with
       | None => resp = Failure 500 "Server error" ∧ coll' = coll
       | Some id =>
         (∀ s, coll !! id = Some s → Model.user s ≠ req_user) →
         resp = Failure 404 "Study session not found" ∧ coll' = coll
       end
     end).
Proof.
  split.
  - intros parseInt data req_user req clock resp data'. apply flat_handle_owner.
  - intros castObjectId trim coll req_user req resp coll'. apply routes_handle_owner.
Qed.

(** The first user asks to change, then to delete, the session of the
    second: both requests are answered 404 and the file is unchanged. A
    document of ["u1"] is out of reach of ["u2"] in the same way, and a
    delete under a parameter that is no object id is answered 500. *)
Lemma ownership_enforced_witness :
  Server.handle parseInt_numbers shared_flat flat_user
    (Server.PUT_session "1704186000000" {[ "duration" := VNum 1 ]}) a_clock
    = (Failure 404 "Study session not found", shared_flat) ∧
  Server.handle parseInt_numbers shared_flat flat_user
    (Server.DELETE_session "1704186000000") a_clock
    = (Failure 404 "Study session not found", shared_flat) ∧
  Routes.handle cast_hex24 id hex_days "u2" (Routes.Delete "65A1F00000000000000000A1")
    = (Failure 404 "Study session not found", hex_days) ∧
  Routes.handle cast_hex24 id hex_days "u2" (Routes.Delete "not-an-object-id")
    = (Failure 500 "Server error", hex_days).
Proof.
  destruct ownership_enforced as [Hflat Hmongo].
  assert (sessionDB.getById shared_flat (Some (VStr "1704186000000")) = Some other_session)
    as Hget by compute_done.
  assert (∀ session,
            sessionDB.getById shared_flat (Some (VStr "1704186000000")) = Some session →
            session !! "userId" ≠ flat_user !! "id") as Hforeign.
  { intros session E. rewrite Hget in E. injection E as <-. compute_done. }
  split; [|split; [|split]].
  - destruct (Server.handle parseInt_numbers shared_flat flat_user
                (Server.PUT_session "1704186000000" {[ "duration" := VNum 1 ]}) a_clock)
      as [resp data'] eqn:E.
    destruct (Hflat _ _ _ _ _ _ _ E) as (_ & _ & H404).
    destruct (H404 Hforeign) as [-> ->]. reflexivity.
  - destruct (Server.handle parseInt_numbers shared_flat flat_user
                (Server.DELETE_session "1704186000000") a_clock)
      as [resp data'] eqn:E.
    destruct (Hflat _ _ _ _ _ _ _ E) as (_ & _ & H404).
    destruct (H404 Hforeign) as [-> ->]. reflexivity.
  - destruct (Routes.handle cast_hex24 id hex_days "u2"
                (Routes.Delete "65A1F00000000000000000A1")) as [resp coll'] eqn:E.
    destruct (Hmongo _ _ _ _ _ _ _ E) as (_ & H404).
    change (cast_hex24 "65A1F00000000000000000A1")
      with (Some "65a1f00000000000000000a1" : option Model.ObjectId) in H404.
    assert (hex_days !! "65a1f00000000000000000a1"
            = Some (session_on 2024 1 1 10 30)) as Hdoc by compute_done.
    destruct H404 as [-> ->]; [|reflexivity].
    intros s Hs.
    assert (Some s = Some (session_on 2024 1 1 10 30)) as [= ->]
      by exact (eq_trans (eq_sym Hs) Hdoc).
    compute_done.
  - destruct (Routes.handle cast_hex24 id hex_days "u2"
                (Routes.Delete "not-an-object-id")) as [resp coll'] eqn:E.
    destruct (Hmongo _ _ _ _ _ _ _ E) as (_ & H500).
    change (cast_hex24 "not-an-object-id") with (None : option Model.ObjectId) in H500.
    destruct H500 as [-> ->]. reflexivity.
Defined.

(** C10. [sessionDB.update] leaves the user records, the number of
    sessions and every session with another id as they are, changes at
    most one session, and in that session changes no property other than
    [updatedAt] and those the [updates] object carries; the [updates]
    object of the PUT handler carries [date], [duration] and [notes] only,
    each only when the request body provides it. *)
Theorem update_frame (parseInt : JSValue → JSValue)
    (data : DB) (id : option JSValue) (updates : JSObject) (clock : Clock)
    (r : option JSObject) (data' : DB) :
  sessionDB.update data id updates clock = (r, data') →
  users data' = users data ∧
  length (studySessions data') = length (studySessions data) ∧
  (∀ j s, studySessions data !! j = Some s →
     ∃ s', studySessions data' !! j = Some s' ∧
           ∀ k, k ≠ "updatedAt" → updates !! k = None → s' !! k = s !! k) ∧
  (∀ j s, studySessions data !! j = Some s → s !! "id" ≠ id →
     studySessions data' !! j = Some s) ∧
  (∀ i j, studySessions data' !! i ≠ studySessions data !! i →
          studySessions data' !! j ≠ studySessions data !! j → i = j) ∧
  (∀ body k v, Server.put_updates parseInt body !! k = Some v →
     (k = "date" ∧ Server.truthy (body !! "date") = true ∧ body !! "date" = Some v) ∨
     (k = "duration" ∧ Server.truthy (body !! "duration") = true ∧
        ∃ d, body !! "duration" = Some d ∧ v = parseInt d) ∨
     (k = "notes" ∧ body !! "notes" = Some v)).
Proof.
  intros Hupd.
  apply sessionDB_update_spec in Hupd
    as [(-> & -> & _)|(i & session & Hfind & -> & ->)].
  - repeat split; try done.
    + intros j s Hs. by exists s.
    + apply put_updates_lookup.
  - apply findIndex_id_Some in Hfind as [Hi Hid].
    cbn [users studySessions].
    split; [done|]. split; [apply length_insert|].
    split; [|split; [|split; [|apply put_updates_lookup]]].
    + intros j s Hs. destruct (decide (j = i)) as [->|Hne].
      * rewrite Hi in Hs. injection Hs as <-.
        eexists. split; [apply list_lookup_insert_eq; by eapply lookup_lt_Some|].
        intros k Hk Hu. by apply updated_lookup_frame.
      * exists s. by rewrite list_lookup_insert_ne.
    + intros j s Hs Hne. destruct (decide (j = i)) as [->|Hji].
      * rewrite Hi in Hs. by injection Hs as <-.
      * by rewrite list_lookup_insert_ne.
    + intros i1 i2 H1 H2.
      destruct (decide (i1 = i)) as [->|N1];
        [|by rewrite list_lookup_insert_ne in H1].
      destruct (decide (i2 = i)) as [->|N2];
        [done|by rewrite list_lookup_insert_ne in H2].
Qed.

(** The first user sets the notes of their own session: the second
    user's session and the user records are as before, and the duration of
    the changed session still is 30. *)
Lemma update_frame_witness :
  let res := sessionDB.update shared_flat (Some (VStr "1704103200000"))
               {[ "notes" := VStr "chapter 3" ]} a_clock in
  users res.2 = users shared_flat ∧
  studySessions res.2 !! 1%nat = Some other_session ∧
  ∃ s', studySessions res.2 !! 0%nat = Some s' ∧ s' !! "duration" = Some (VNum 30).
Proof.
  intros res.
  destruct (update_frame parseInt_numbers shared_flat (Some (VStr "1704103200000"))
              {[ "notes" := VStr "chapter 3" ]} a_clock res.1 res.2
              (surjective_pairing res))
    as (Husers & _ & Hframe & Hother & _).
  split; [exact Husers|]. split.
  - apply Hother; [reflexivity|]. vm_compute. discriminate.
  - destruct (Hframe 0%nat (flat_session "1704103200000" "2024-01-01" 30) eq_refl)
      as (s' & Hs' & Hk).
    exists s'. split; [exact Hs'|].
    rewrite (Hk "duration"); [vm_compute; reflexivity|discriminate|reflexivity].
Defined.

End OwnershipClaims.

(** * Further properties of the flat-file store *)

Section FindFacts.
Context {A : Type} (P : A → Prop) `{∀ x, Decision (P x)}.

(** Overwriting the first match by another match keeps it the first. *)
Lemma list_find_insert_first (l : list A) (i : nat) (x y : A) :
  list_find P l = Some (i, x) → P y → list_find P (<[i := y]> l) = Some (i, y).
Proof.
  intros (Hi & Hx & Hlt)%list_find_Some Hy. apply list_find_Some.
  split; [apply list_lookup_insert_eq; by eapply lookup_lt_Some|].
  split; [done|]. intros j z Hj Hji.
  rewrite list_lookup_insert_ne in Hj by lia. by eapply Hlt.
Qed.

(** Removing the only match leaves none. *)
Lemma list_find_delete_only (l : list A) (i : nat) (x : A) :
  list_find P l = Some (i, x) →
  (∀ j y, l !! j = Some y → P y → j = i) →
  list_find P (delete i l) = None.
Proof.
  intros (Hi & Hx & Hlt)%list_find_Some Honly.
  apply list_find_None, Forall_forall. intros y Hy Py.
  apply list_elem_of_lookup in Hy as [j Hj].
  destruct (decide (j < i)%nat) as [Hlt'|Hge].
  - rewrite list_lookup_delete_lt in Hj by done. specialize (Honly _ _ Hj Py). lia.
  - rewrite list_lookup_delete_ge in Hj by lia. specialize (Honly _ _ Hj Py). lia.
Qed.

Lemma list_find_snoc_fresh (l : list A) (y : A) :
  Forall (λ x, ¬ P x) l → P y → list_find P (l ++ [y]) = Some (length l, y).
Proof.
  intros Hl Hy. pose proof (proj2 (list_find_None P l) Hl) as Hn.
  rewrite list_find_app_r by done. simpl. rewrite decide_True by done. done.
Qed.

End FindFacts.

Section FlatStoreExtras.
Import Database Server Invariants Scenarios.

Lemma session_id_fresh_check data id :
  forallb (λ s : JSObject, bool_decide (s !! "id" ≠ id)) (studySessions data) = true →
  session_id_fresh data id.
Proof.
  intros Hb s Hs. rewrite forallb_forall in Hb.
  apply list_elem_of_In, Hb in Hs. by apply bool_decide_eq_true in Hs.
Qed.

Lemma created_lookup_id (sessionData : JSObject) (clock : Clock) :
  (<["createdAt" := VStr (now_iso clock)]>
     (<["id" := VStr (now_ms clock)]> sessionData)) !! "id"
  = Some (VStr (now_ms clock)).
Proof. by simplify_map_eq. Qed.

(** X1. A session created under an id that no stored session carries is
    the one [getById] returns for that id afterwards, and the lookup of
    every other id is as before. *)
Theorem created_session_found_by_id
    (data : DB) (sessionData : JSObject) (clock : Clock) :
  session_id_fresh data (Some (VStr (now_ms clock))) →
  sessionDB.getById (sessionDB.create data sessionData clock).2
                    (Some (VStr (now_ms clock)))
    = Some (sessionDB.create data sessionData clock).1 ∧
  ∀ id, id ≠ Some (VStr (now_ms clock)) →
    sessionDB.getById (sessionDB.create data sessionData clock).2 id
      = sessionDB.getById data id.
Proof.
  intros Hfresh. unfold sessionDB.create, sessionDB.getById, findIndex_id.
  cbn [fst snd studySessions]. split.
  - rewrite list_find_snoc_fresh; [done| |apply created_lookup_id].
    apply Forall_forall. intros s Hs. by apply Hfresh.
  - intros id Hid. destruct (list_find _ (studySessions data)) as [[i s]|] eqn:E.
    + by rewrite (list_find_app_l _ _ _ _ _ E).
    + rewrite list_find_app_r by done. simpl.
      rewrite decide_False; [done|]. rewrite created_lookup_id. congruence.
Qed.

Lemma created_session_found_by_id_witness :
  sessionDB.getById (sessionDB.create shared_flat ∅ a_clock).2
                    (Some (VStr (now_ms a_clock)))
    = Some (sessionDB.create shared_flat ∅ a_clock).1 ∧
  ∀ id, id ≠ Some (VStr (now_ms a_clock)) →
    sessionDB.getById (sessionDB.create shared_flat ∅ a_clock).2 id
      = sessionDB.getById shared_flat id.
Proof.
  apply (created_session_found_by_id shared_flat ∅ a_clock).
  apply session_id_fresh_check. compute_done.
Defined.

(** X2. Ids are clock readings: when a stored session already carries the
    id drawn for a new one, [getById] keeps returning the older session
    and the new one cannot be reached by its id. *)
Theorem created_session_shadowed
    (data : DB) (sessionData : JSObject) (clock : Clock) (older : JSObject) :
  sessionDB.getById data (Some (VStr (now_ms clock))) = Some older →
  sessionDB.getById (sessionDB.create data sessionData clock).2
                    (Some (VStr (now_ms clock))) = Some older.
Proof.
  unfold sessionDB.create, sessionDB.getById, findIndex_id. cbn [snd studySessions].
  destruct (list_find _ (studySessions data)) as [[i s]|] eqn:E; [|done].
  intros [= <-]. by rewrite (list_find_app_l _ _ _ _ _ E).
Qed.

Lemma created_session_shadowed_witness :
  sessionDB.getById
    (sessionDB.create shared_flat ∅ (mkClock "1704186000000" "2024-01-02T09:00:00.000Z")).2
    (Some (VStr "1704186000000")) = Some other_session.
Proof.
  apply (created_session_shadowed shared_flat ∅
           (mkClock "1704186000000" "2024-01-02T09:00:00.000Z") other_session).
  compute_done.
Defined.

Section WithParseInt.
Variable parseInt : JSValue → JSValue.

Lemma post_newSession_lookups (uid d du n : option JSValue) (i c : JSValue) :
  let s := <["createdAt" := c]>
             (<["id" := i]>
                (set_prop "userId" uid
                   (set_prop "date" d (set_prop "duration" du (set_prop "notes" n ∅))))) in
  s !! "userId" = uid ∧ s !! "date" = d ∧ s !! "duration" = du ∧ s !! "notes" = n ∧
  s !! "id" = Some i ∧ s !! "createdAt" = Some c ∧
  ∀ k, k ∉ ["userId"; "date"; "duration"; "notes"; "id"; "createdAt"] → s !! k = None.
Proof.
  cbv zeta. destruct uid, d, du, n; unfold set_prop;
    (repeat split; [by simplify_map_eq..|]);
    intros k Hk; rewrite !not_elem_of_cons in Hk;
    destruct Hk as (? & ? & ? & ? & ? & ? & _);
    by simplify_map_eq.
Qed.

Lemma post_session_ok (data : DB) (req_user body : JSObject) (clock : Clock) :
  truthy (body !! "date") && truthy (body !! "duration") = true →
  ∃ s, post_session parseInt data req_user body clock
       = (Success 201 s, mkDB (users data) (studySessions data ++ [s])).
Proof.
  unfold post_session, sessionDB.create. intros [-> ->]%andb_true_iff.
  cbn [negb orb]. by eexists.
Qed.

(** X3. The POST handler answers 400 and writes nothing when [date] or
    [duration] is missing or falsy. Otherwise it answers 201 and appends
    exactly one session, whose owner is the caller, whose [date] is the
    body's, whose [duration] is [parseInt] of the body's, whose [notes] is
    the body's or the empty string, whose [id] and [createdAt] are clock
    readings, and which has no other property: nothing else of the body
    is stored. *)
Theorem post_session_validates_and_stores
    (data : DB) (req_user body : JSObject) (clock : Clock) :
  (truthy (body !! "date") && truthy (body !! "duration") = false →
   post_session parseInt data req_user body clock
     = (Failure 400 "Date and duration are required", data)) ∧
  (truthy (body !! "date") && truthy (body !! "duration") = true →
   ∃ s, post_session parseInt data req_user body clock
          = (Success 201 s, mkDB (users data) (studySessions data ++ [s])) ∧
        s !! "userId" = req_user !! "id" ∧
        s !! "date" = body !! "date" ∧
        s !! "duration" = parseInt <$> body !! "duration" ∧
        s !! "notes" = (if truthy (body !! "notes") then body !! "notes"
                        else Some (VStr "")) ∧
        s !! "id" = Some (VStr (now_ms clock)) ∧
        s !! "createdAt" = Some (VStr (now_iso clock)) ∧
        ∀ k, k ∉ ["userId"; "date"; "duration"; "notes"; "id"; "createdAt"] →
             s !! k = None).
Proof.
  unfold post_session, sessionDB.create. split; intros Ht.
  - apply andb_false_iff in Ht as [-> | ->]; [done|]. by rewrite orb_true_r.
  - apply andb_true_iff in Ht as [-> ->]. cbn [negb orb].
    eexists. split; [reflexivity|]. apply post_newSession_lookups.
Qed.

(** X4. After a POST that succeeded, the caller's list of sessions is the
    former list followed by the created session, and the list of a user
    with another id is as before. *)
Theorem post_then_get_sessions
    (data : DB) (req_user other body : JSObject) (clock : Clock)
    (st : nat) (s : JSObject) (data' : DB) :
  post_session parseInt data req_user body clock = (Success st s, data') →
  get_sessions data' req_user
    = Success 200 (sessionDB.getByUserId data (req_user !! "id") ++ [s]) ∧
  (other !! "id" ≠ req_user !! "id" → get_sessions data' other = get_sessions data other).
Proof.
  unfold post_session. destruct (negb _ || negb _); [done|].
  unfold sessionDB.create. intros [= <- <- <-].
  unfold get_sessions, sessionDB.getByUserId. cbn [studySessions].
  rewrite !filter_app, !filter_cons, !filter_nil.
  rewrite !created_session_owner. split.
  - by rewrite decide_True.
  - intros Hne. rewrite decide_False by done. by rewrite app_nil_r.
Qed.

(** X5. A PUT on a session the caller owns answers 200 with the session as
    rewritten: [updatedAt] is the clock reading, every property of the
    [updates] object has its new value, every property other than [date],
    [duration], [notes] and [updatedAt] (so [id], [userId], [createdAt])
    is as before; the rewritten session is what [getById] returns for the
    id afterwards, and the number of sessions is unchanged. *)
Theorem put_session_rewrites_owned
    (data : DB) (req_user : JSObject) (id : string) (body : JSObject)
    (clock : Clock) (session : JSObject) :
  sessionDB.getById data (Some (VStr id)) = Some session →
  session !! "userId" = req_user !! "id" →
  ∃ s' data',
    put_session parseInt data req_user id body clock = (Success 200 (Some s'), data') ∧
    s' !! "updatedAt" = Some (VStr (now_iso clock)) ∧
    (∀ k v, put_updates parseInt body !! k = Some v → s' !! k = Some v) ∧
    (∀ k, k ∉ ["date"; "duration"; "notes"; "updatedAt"] → s' !! k = session !! k) ∧
    sessionDB.getById data' (Some (VStr id)) = Some s' ∧
    length (studySessions data') = length (studySessions data).
Proof.
  intros Hget Hown. unfold put_session. rewrite Hget.
  rewrite decide_False by (by intros Hne).
  destruct (getById_findIndex _ _ _ Hget) as [i Hi].
  unfold sessionDB.update. rewrite Hi.
  eexists _, _. split; [reflexivity|].
  assert (∀ k, k ∉ ["date"; "duration"; "notes"; "updatedAt"] →
            (<["updatedAt" := VStr (now_iso clock)]>
               (spread session (put_updates parseInt body))) !! k = session !! k)
    as Hframe.
  { intros k Hk. rewrite !not_elem_of_cons in Hk. destruct Hk as (? & ? & ? & ? & _).
    apply updated_lookup_frame; [done|]. by apply put_updates_other_key. }
  split; [apply lookup_insert_eq|]. split; [|split; [exact Hframe|split]].
  - intros k v Hk. apply updated_lookup_set; [|done].
    apply put_updates_lookup in Hk as [(-> & _)|[(-> & _)|(-> & _)]]; done.
  - unfold sessionDB.getById, findIndex_id. cbn [studySessions].
    rewrite (list_find_insert_first _ _ _ session); [done|exact Hi|].
    rewrite Hframe;
      [|rewrite !not_elem_of_cons; repeat split; try done; apply not_elem_of_nil].
    by apply findIndex_id_Some in Hi as [_ ?].
  - cbn [studySessions]. apply length_insert.
Qed.

End WithParseInt.

Lemma post_session_validates_and_stores_witness :
  ∃ s, post_session parseInt_numbers shared_flat flat_user
         (list_to_map [("date", VStr "2024-01-03"); ("duration", VNum 25);
                       ("userId", VStr "1700000000001")]) a_clock
       = (Success 201 s, mkDB (users shared_flat) (studySessions shared_flat ++ [s])) ∧
       s !! "userId" = flat_user !! "id".
Proof.
  destruct (post_session_validates_and_stores parseInt_numbers shared_flat flat_user
              (list_to_map [("date", VStr "2024-01-03"); ("duration", VNum 25);
                            ("userId", VStr "1700000000001")]) a_clock)
    as [_ Hok].
  destruct Hok as (s & E & Hu & _); [compute_done|].
  exists s. split; [exact E|exact Hu].
Defined.

Lemma post_then_get_sessions_witness :
  ∃ s data',
    post_session parseInt_numbers shared_flat flat_user
      (list_to_map [("date", VStr "2024-01-03"); ("duration", VNum 25)]) a_clock
      = (Success 201 s, data') ∧
    get_sessions data' flat_user
      = Success 200 (sessionDB.getByUserId shared_flat (flat_user !! "id") ++ [s]) ∧
    get_sessions data' other_user = get_sessions shared_flat other_user.
Proof.
  destruct (post_session_ok parseInt_numbers shared_flat flat_user
              (list_to_map [("date", VStr "2024-01-03"); ("duration", VNum 25)]) a_clock)
    as [s E]; [compute_done|].
  exists s, (mkDB (users shared_flat) (studySessions shared_flat ++ [s])).
  split; [exact E|].
  destruct (post_then_get_sessions parseInt_numbers shared_flat flat_user other_user
              _ _ _ _ _ E) as [H1 H2].
  split; [exact H1|]. apply H2. compute_done.
Defined.

Lemma put_session_rewrites_owned_witness :
  ∃ s' data',
    put_session parseInt_numbers shared_flat other_user "1704186000000"
      {[ "notes" := VStr "chapter 3" ]} a_clock = (Success 200 (Some s'), data') ∧
    s' !! "notes" = Some (VStr "chapter 3") ∧
    sessionDB.getById data' (Some (VStr "1704186000000")) = Some s'.
Proof.
  destruct (put_session_rewrites_owned parseInt_numbers shared_flat other_user
              "1704186000000" {[ "notes" := VStr "chapter 3" ]} a_clock other_session)
    as (s' & data' & E & _ & Hset & _ & Hget & _); [compute_done|compute_done|].
  exists s', data'. split; [exact E|]. split; [|exact Hget].
  apply Hset. compute_done.
Defined.

Lemma ids_unique_only_match data i session :
  session_ids_unique data →
  studySessions data !! i = Some session →
  ∀ j y, studySessions data !! j = Some y → y !! "id" = session !! "id" → j = i.
Proof.
  intros Hnd Hi j y Hj Hid.
  apply (NoDup_lookup _ j i (session !! "id") Hnd); rewrite list_lookup_fmap.
  - rewrite Hj. simpl. by rewrite Hid.
  - by rewrite Hi.
Qed.

(** X6. A DELETE on a session the caller owns answers 200 with that
    session and removes exactly it: the user records are untouched and the
    remaining sessions keep their order; and, when ids are pairwise
    different, the id is not found any more and a second DELETE is
    answered 404. *)
Theorem delete_session_removes_owned
    (data : DB) (req_user : JSObject) (id : string) (session : JSObject) :
  sessionDB.getById data (Some (VStr id)) = Some session →
  session !! "userId" = req_user !! "id" →
  ∃ data',
    delete_session data req_user id = (Success 200 (Some session), data') ∧
    users data' = users data ∧
    studySessions data ≡ₚ session :: studySessions data' ∧
    studySessions data' `sublist_of` studySessions data ∧
    (session_ids_unique data →
       sessionDB.getById data' (Some (VStr id)) = None ∧
       delete_session data' req_user id
         = (Failure 404 "Study session not found", data')).
Proof.
  intros Hget Hown. unfold delete_session at 1. rewrite Hget.
  rewrite decide_False by (by intros Hne).
  destruct (getById_findIndex _ _ _ Hget) as [i Hi].
  unfold sessionDB.delete. rewrite Hi.
  eexists. split; [reflexivity|]. cbn [users studySessions].
  pose proof (findIndex_id_Some _ _ _ _ Hi) as [Hlook Hid].
  split; [done|]. split; [by apply delete_Permutation|].
  split; [apply sublist_delete|]. intros Huniq.
  assert (sessionDB.getById
            (mkDB (users data) (delete i (studySessions data))) (Some (VStr id)) = None)
    as Hnone.
  { unfold sessionDB.getById, findIndex_id. cbn [studySessions].
    rewrite (list_find_delete_only _ _ i session); [done|exact Hi|].
    intros j y Hj Hy. eapply ids_unique_only_match; [done..|congruence]. }
  split; [exact Hnone|].
  unfold delete_session. by rewrite Hnone.
Qed.

Lemma session_ids_unique_check data :
  bool_decide (NoDup ((λ s : JSObject, s !! "id") <$> studySessions data)) = true →
  session_ids_unique data.
Proof. apply bool_decide_eq_true_1. Qed.

Lemma delete_session_removes_owned_witness :
  ∃ data',
    delete_session shared_flat other_user "1704186000000"
      = (Success 200 (Some other_session), data') ∧
    sessionDB.getById data' (Some (VStr "1704186000000")) = None.
Proof.
  destruct (delete_session_removes_owned shared_flat other_user "1704186000000"
              other_session) as (data' & E & _ & _ & _ & Huniq);
    [compute_done|compute_done|].
  exists data'. split; [exact E|].
  apply Huniq, session_ids_unique_check. compute_done.
Defined.

Lemma filter_owner_foreign (v a : option JSValue) (l : list JSObject) :
  v ≠ a →
  filter (λ s : JSObject, s !! "userId" = v) (filter (λ s : JSObject, s !! "userId" ≠ a) l)
  = filter (λ s : JSObject, s !! "userId" = v) l.
Proof.
  intros Hne. induction l as [|s l IH]; [done|]. rewrite !filter_cons.
  destruct (decide (s !! "userId" ≠ a)) as [H1|H1].
  - rewrite filter_cons. destruct (decide (s !! "userId" = v)); by rewrite IH.
  - apply dec_stable in H1. rewrite decide_False by congruence. exact IH.
Qed.

Lemma getByDate_getByUserId data userId date :
  sessionDB.getByDate data userId date
  = filter (λ s : JSObject, s !! "date" = date) (sessionDB.getByUserId data userId).
Proof.
  unfold sessionDB.getByDate, sessionDB.getByUserId.
  induction (studySessions data) as [|s l IH]; [done|]. rewrite !filter_cons.
  destruct (decide (s !! "userId" = userId)) as [Hu|Hu].
  - rewrite filter_cons. destruct (decide (s !! "date" = date)) as [Hd|Hd].
    + rewrite decide_True by done. by rewrite IH.
    + rewrite decide_False by (by intros [_ ?]). exact IH.
  - rewrite decide_False by (by intros [? _]). exact IH.
Qed.

(** X7. Whatever one user creates, changes or deletes, a user with
    another id reads the same list of sessions, the same sessions of any
    date and the same statistics as before. *)
Theorem other_users_unaffected
    (parseInt : JSValue → JSValue) (data : DB) (actor viewer : JSObject)
    (req : Request) (clock : Clock) (resp : Response (option JSObject)) (data' : DB) :
  handle parseInt data actor req clock = (resp, data') →
  viewer !! "id" ≠ actor !! "id" →
  get_sessions data' viewer = get_sessions data viewer ∧
  get_stats data' viewer = get_stats data viewer ∧
  ∀ date, get_sessions_by_date data' viewer date = get_sessions_by_date data viewer date.
Proof.
  intros Hh Hne. apply flat_handle_owner in Hh as (Hf & _ & _).
  assert (sessionDB.getByUserId data' (viewer !! "id")
          = sessionDB.getByUserId data (viewer !! "id")) as Hsame.
  { unfold sessionDB.getByUserId.
    rewrite <- (filter_owner_foreign _ (actor !! "id") (studySessions data')) by done.
    rewrite <- (filter_owner_foreign _ (actor !! "id") (studySessions data)) by done.
    unfold foreign in Hf. by rewrite Hf. }
  unfold get_sessions, get_stats, get_sessions_by_date.
  rewrite Hsame. split; [done|]. split; [done|].
  intros date. by rewrite !getByDate_getByUserId, Hsame.
Qed.

Lemma other_users_unaffected_witness :
  get_stats
    (handle parseInt_numbers shared_flat flat_user
       (DELETE_session "1704103200000") a_clock).2 other_user
  = get_stats shared_flat other_user.
Proof.
  apply (other_users_unaffected parseInt_numbers shared_flat flat_user other_user
           (DELETE_session "1704103200000") a_clock _ _ (surjective_pairing _)).
  compute_done.
Defined.

(** [Math.round] of a quotient that lies between two integers lies between
    them. *)
Lemma Math_round_between (lo hi t n : Z) :
  0 < n → n * lo ≤ t ≤ n * hi →
  lo ≤ Math_round (Qc_of_Z t / Qc_of_Z n)%Qc ≤ hi.
Proof.
  intros Hn [Hlo Hhi]. unfold Math_round.
  assert ((Qc_of_Z t / Qc_of_Z n)%Qc == inject_Z t / inject_Z n)%Q as Eq.
  { unfold Qcdiv, Qcmult, Qcinv, Q2Qc. cbn [this].
    rewrite !Qred_correct. reflexivity. }
  assert (0 < inject_Z n)%Q as Hn' by (by rewrite (Zlt_Qlt 0 n) in Hn).
  assert (inject_Z lo <= (Qc_of_Z t / Qc_of_Z n)%Qc)%Q as Hq1.
  { rewrite Eq. apply Qle_shift_div_l; [done|].
    rewrite <- inject_Z_mult, <- Zle_Qle. lia. }
  assert ((Qc_of_Z t / Qc_of_Z n)%Qc <= inject_Z hi)%Q as Hq2.
  { rewrite Eq. apply Qle_shift_div_r; [done|].
    rewrite <- inject_Z_mult, <- Zle_Qle. lia. }
  split.
  - rewrite <- (Qfloor_Z lo). apply Qfloor_resp_le. lra.
  - pose proof (Qfloor_le ((Qc_of_Z t / Qc_of_Z n)%Qc + (1 # 2))) as Hfl.
    assert (inject_Z (Qfloor ((Qc_of_Z t / Qc_of_Z n)%Qc + (1 # 2))) < inject_Z (hi + 1))%Q
      as Hlt by (rewrite inject_Z_plus; change (inject_Z 1) with 1%Q; lra).
    rewrite <- Zlt_Qlt in Hlt. lia.
Qed.

(** While the durations are within [-M, M] and [M] times their number,
    with the sum so far, stays below [2 ^ 53], every addition is exact. *)
Lemma sum_durations_from (lo hi M : Z) (l : list JSObject) :
  durations_within lo hi l → - M ≤ lo → hi ≤ M →
  ∀ acc, Z.abs acc + Z.of_nat (length l) * M < 2 ^ 53 → ∃ t,
    foldl (λ sum session, s ← sum; d ← duration_number session; Double.add s d)
          (Some acc) l = Some (acc + t) ∧
    Z.of_nat (length l) * lo ≤ t ≤ Z.of_nat (length l) * hi.
Proof.
  intros Hw HloM HhiM.
  induction Hw as [|s l (n & Hn & Hb) Hl IH]; intros acc Hacc.
  - exists 0. split; [simpl; f_equal; lia|simpl; lia].
  - rewrite length_cons, Nat2Z.inj_succ, Z.mul_succ_l in Hacc.
    assert (0 ≤ Z.of_nat (length l) * M) as HM by nia.
    destruct (IH (acc + n)) as (t & Ht & Hbt); [lia|]. exists (n + t). split.
    + cbn [foldl]. unfold duration_number at 2. rewrite Hn.
      rewrite of_Z_small by lia. cbn [mbind option_bind].
      change (Double.add acc n) with (Double.of_Z (acc + n)).
      rewrite of_Z_small by lia.
      rewrite Ht. f_equal. lia.
    + rewrite length_cons. lia.
Qed.

(** X8. When every session of the caller holds a number between [lo] and
    [hi] as its duration, there is at least one, and the number of sessions
    times the larger of [|lo|] and [|hi|] is below [2 ^ 52] (so that the
    double arithmetic of the handler is exact), the statistics give the
    count, a total between [count * lo] and [count * hi], and an average
    between [lo] and [hi]. *)
Theorem get_stats_within_bounds (data : DB) (req_user : JSObject) (lo hi : Z) :
  durations_within lo hi (sessionDB.getByUserId data (req_user !! "id")) →
  sessionDB.getByUserId data (req_user !! "id") ≠ [] →
  Z.of_nat (length (sessionDB.getByUserId data (req_user !! "id")))
    * Z.max (Z.abs lo) (Z.abs hi) < 2 ^ 52 →
  ∃ t a,
    get_stats data req_user
      = Success 200 (mkStatsData (length (sessionDB.getByUserId data (req_user !! "id")))
                                 (Some t) (Some a)) ∧
    Z.of_nat (length (sessionDB.getByUserId data (req_user !! "id"))) * lo ≤ t ∧
    t ≤ Z.of_nat (length (sessionDB.getByUserId data (req_user !! "id"))) * hi ∧
    lo ≤ a ≤ hi.
Proof.
  intros Hw Hne Hexact. unfold get_stats.
  set (M := Z.max (Z.abs lo) (Z.abs hi)) in *.
  destruct (sum_durations_from lo hi M _ Hw ltac:(lia) ltac:(lia) 0)
    as (t & Ht & Hlo & Hhi); [simpl; lia|].
  rewrite Z.add_0_l in Ht. unfold sum_durations. rewrite Ht.
  assert (0 < length (sessionDB.getByUserId data (req_user !! "id")))%nat as Hpos.
  { destruct (sessionDB.getByUserId data (req_user !! "id")); [done|simpl; lia]. }
  pose proof Hpos as Hb. apply Nat.ltb_lt in Hb. rewrite Hb.
  eexists _, _. split; [reflexivity|]. split; [done|]. split; [done|].
  cbn [fmap option_fmap option_map].
  rewrite Math_round_div_exact by nia.
  apply Math_round_between; lia.
Qed.

Lemma durations_within_check lo hi (l : list JSObject) :
  forallb (λ s : JSObject,
             match s !! "duration" with
             | Some (VNum n) => (lo <=? n) && (n <=? hi)
             | _ => false
             end) l = true →
  durations_within lo hi l.
Proof.
  intros Hb. apply Forall_forall. intros s Hs. rewrite forallb_forall in Hb.
  apply list_elem_of_In, Hb in Hs.
  destruct (s !! "duration") as [[| |n|]|]; try done.
  exists n. split; [done|]. lia.
Qed.

Lemma get_stats_within_bounds_witness :
  ∃ t a,
    get_stats same_day_flat flat_user
      = Success 200 (mkStatsData
                       (length (sessionDB.getByUserId same_day_flat (flat_user !! "id")))
                       (Some t) (Some a)) ∧
    30 ≤ a ≤ 45.
Proof.
  destruct (get_stats_within_bounds same_day_flat flat_user 30 45)
    as (t & a & E & _ & _ & Ha);
    [apply durations_within_check; compute_done|compute_done|compute_done|].
  exists t, a. split; [exact E|exact Ha].
Defined.

(** X9. [verifyToken] lets a request through exactly for a user of the
    file whose [token] is the non-empty token of the request (the first
    such user); every other request is answered 401. *)
Theorem verifyToken_sound_and_complete (data : DB) (token : option string) :
  (∀ st u, verifyToken data token = Success st u →
     ∃ t, token = Some t ∧ t ≠ "" ∧ u ∈ users data ∧ u !! "token" = Some (VStr t)) ∧
  (∀ st e, verifyToken data token = Failure st e →
     st = 401%nat ∧
     ∀ t, token = Some t → t ≠ "" →
          ∀ u, u ∈ users data → u !! "token" ≠ Some (VStr t)).
Proof.
  unfold verifyToken, userDB.getAll. destruct token as [t|]; [|split; [done|]].
  - destruct (String.eqb t "") eqn:Et.
    + apply String.eqb_eq in Et as ->. split; [done|].
      intros st e [= <- <-]. split; [done|]. by intros t [= <-].
    + apply String.eqb_neq in Et.
      destruct (list_find _ _) as [[i u]|] eqn:E; split; try done.
      * intros st u' [= <- <-]. apply list_find_Some in E as (Hi & Hu & _).
        exists t. repeat split; try done. by eapply list_elem_of_lookup_2.
      * intros st e [= <- <-]. split; [done|]. intros t' [= <-] _ u Hu.
        apply list_find_None in E. rewrite Forall_forall in E. by apply E.
  - intros st e [= <- <-]. split; [done|]. by intros t.
Qed.

Lemma verifyToken_sound_and_complete_witness :
  ∃ t, Some "s3cr3t" = Some t ∧ t ≠ "" ∧ other_user ∈ users shared_flat ∧
       other_user !! "token" = Some (VStr t).
Proof.
  destruct (verifyToken_sound_and_complete shared_flat (Some "s3cr3t")) as [Hs _].
  apply (Hs 200%nat other_user). compute_done.
Defined.

End FlatStoreExtras.

(** * Further properties of the authentication handlers *)

Section AuthExtras.
Import Database Server Auth Invariants Scenarios.
Variable hashPassword : string → string.

Lemma newUser_lookups (n e : option JSValue) (p t i c : JSValue) :
  let u := <["createdAt" := c]>
             (<["id" := i]>
                (set_prop "name" n
                   (set_prop "email" e
                      (set_prop "password" (Some p) (set_prop "token" (Some t) ∅))))) in
  u !! "name" = n ∧ u !! "email" = e ∧ u !! "password" = Some p ∧
  u !! "token" = Some t ∧ u !! "id" = Some i.
Proof. cbv zeta. destruct n, e; unfold set_prop; repeat split; by simplify_map_eq. Qed.

(** The outcome of a registration that succeeded. *)
Lemma register_success data body token clock st d data' :
  register hashPassword data body token clock = (Success st d, data') →
  ∃ pw u,
    st = 201%nat ∧ d = auth_data u ∧
    data' = mkDB (users data ++ [u]) (studySessions data) ∧
    userDB.getByEmail data (body !! "email") = None ∧
    truthy (body !! "email") && truthy (body !! "password") = true ∧
    body !! "password" = Some (VStr pw) ∧
    u !! "name" = body !! "name" ∧ u !! "email" = body !! "email" ∧
    u !! "password" = Some (VStr (hashPassword pw)) ∧
    u !! "token" = Some (VStr token) ∧
    u !! "id" = Some (VStr (now_ms clock)).
Proof.
  unfold register.
  destruct (truthy (body !! "name")); [|done].
  destruct (truthy (body !! "email")) eqn:Te; [|done].
  destruct (truthy (body !! "password")) eqn:Tp; [|done]. cbn [negb orb].
  destruct (userDB.getByEmail data (body !! "email")) eqn:Eg; [done|].
  destruct (body !! "password") as [[| | |pw]|]; try done.
  unfold userDB.create. intros [= <- <- <-].
  eexists pw, _. split; [done|]. split; [done|]. split; [done|].
  split; [done|]. split; [done|]. split; [done|]. apply newUser_lookups.
Qed.

Lemma register_failure data body token clock st e data' :
  register hashPassword data body token clock = (Failure st e, data') → data' = data.
Proof.
  unfold register. destruct (negb _ || negb _ || negb _); [by intros [= _ _ <-]|].
  destruct (userDB.getByEmail _ _); [by intros [= _ _ <-]|].
  destruct (body !! "password") as [[| | |pw]|]; by intros [= _ _ <-].
Qed.

(** X10. A registration either fails and leaves the file as it is, or
    answers 201 and appends one user: this happens only when no stored
    user has the e-mail address and the password is a string; the new user
    carries the name and the address of the body, the drawn token, a clock
    reading as id, and the hash of the password, and the answer shows that
    user. Sessions are never touched. *)
Theorem register_outcome
    (data : DB) (body : JSObject) (token : string) (clock : Clock)
    (resp : Response AuthData) (data' : DB) :
  register hashPassword data body token clock = (resp, data') →
  studySessions data' = studySessions data ∧
  match resp with
  | Failure _ _ => data' = data
  | Success st d =>
    st = 201%nat ∧
    ∃ pw u,
      users data' = users data ++ [u] ∧ d = auth_data u ∧
      userDB.getByEmail data (body !! "email") = None ∧
      body !! "password" = Some (VStr pw) ∧
      u !! "name" = body !! "name" ∧ u !! "email" = body !! "email" ∧
      u !! "password" = Some (VStr (hashPassword pw)) ∧
      u !! "token" = Some (VStr token) ∧
      u !! "id" = Some (VStr (now_ms clock))
  end.
Proof.
  destruct resp as [st d|st e]; intros Hr.
  - apply register_success in Hr
      as (pw & u & -> & -> & -> & Hg & _ & Hp & Hn & He & Hh & Ht & Hi).
    split; [done|]. split; [done|]. by exists pw, u.
  - apply register_failure in Hr as ->. done.
Qed.

(** X11. After a registration that succeeded with a string as e-mail
    address, a registration with the same address is answered 400 and
    leaves the file as it is, whatever else its body holds. (Two arrays or
    objects are never [===], so the property is one of strings.) *)
Theorem register_same_email_rejected
    (data : DB) (body body2 : JSObject) (token token2 : string) (clock clock2 : Clock)
    (st : nat) (d : AuthData) (data' : DB) :
  register hashPassword data body token clock = (Success st d, data') →
  is_string (body !! "email") = true →
  body2 !! "email" = body !! "email" →
  ∃ e, register hashPassword data' body2 token2 clock2 = (Failure 400 e, data').
Proof.
  intros Hr _ He2.
  apply register_success in Hr
    as (pw & u & -> & -> & -> & Hg & Te & Hp & Hn & He & Hh & Ht & Hi).
  unfold register. destruct (negb _ || negb _ || negb _); [by eexists|].
  assert (is_Some (userDB.getByEmail
                     (mkDB (users data ++ [u]) (studySessions data)) (body2 !! "email")))
    as [u0 ->]; [|by eexists].
  unfold userDB.getByEmail. cbn [users].
  destruct (list_find_elem_of (λ x : JSObject, x !! "email" = body2 !! "email")
              (users data ++ [u]) u) as [[i x] ->]; [|congruence|by eexists].
  apply elem_of_app. right. by apply list_elem_of_singleton.
Qed.

Lemma register_keeps_emails_unique
    (data : DB) (body : JSObject) (token : string) (clock : Clock)
    (resp : Response AuthData) (data' : DB) :
  emails_unique data →
  register hashPassword data body token clock = (resp, data') →
  emails_unique data'.
Proof.
  intros Hu Hr. destruct resp as [st d|st e].
  - apply register_success in Hr
      as (pw & u & -> & -> & -> & Hg & Te & Hp & Hn & He & Hh & Ht & Hi).
    unfold emails_unique in *. cbn [users]. rewrite fmap_app. apply NoDup_app.
    split; [done|]. split; [|apply NoDup_singleton].
    intros e Hin Hin2. apply list_elem_of_singleton in Hin2 as ->.
    apply list_elem_of_fmap in Hin as (u0 & Hu0 & Hin).
    unfold userDB.getByEmail in Hg. destruct (list_find _ _) eqn:Ef; [done|].
    apply list_find_None in Ef. rewrite Forall_forall in Ef.
    apply (Ef u0 Hin). congruence.
  - by apply register_failure in Hr as ->.
Qed.

(** X13. The token handed out by a registration authenticates the new
    user: when no stored user carried it and it is not empty,
    [verifyToken] answers with the user just created, and [/me] shows the
    e-mail address that was registered. *)
Theorem register_then_verifyToken
    (data : DB) (body : JSObject) (token : string) (clock : Clock)
    (st : nat) (d : AuthData) (data' : DB) :
  register hashPassword data body token clock = (Success st d, data') →
  token ≠ "" → token_fresh data token →
  ∃ u, verifyToken data' (Some token) = Success 200 u ∧
       auth_data u = d ∧ u !! "email" = body !! "email" ∧
       a_email <$> (match me data' (Some token) with
                    | Success _ m => Some m | Failure _ _ => None end)
         = Some (body !! "email").
Proof.
  intros Hr Hne Hfresh.
  apply register_success in Hr
    as (pw & u & -> & -> & -> & Hg & Te & Hp & Hn & He & Hh & Ht & Hi).
  assert (verifyToken (mkDB (users data ++ [u]) (studySessions data)) (Some token)
          = Success 200 u) as Hv.
  { unfold verifyToken, userDB.getAll. cbn [users].
    apply String.eqb_neq in Hne. rewrite Hne.
    rewrite list_find_snoc_fresh; [done| |done].
    apply Forall_forall. intros u0 Hu0. by apply Hfresh. }
  exists u. split; [exact Hv|]. split; [done|]. split; [done|].
  unfold me. rewrite Hv. cbn. by rewrite He.
Qed.

Lemma relogged_lookup u token clock k :
  k ≠ "token" → k ≠ "updatedAt" → relogged u token clock !! k = u !! k.
Proof.
  intros Ht Hu. unfold relogged. apply updated_lookup_frame; [done|].
  by rewrite lookup_singleton_ne.
Qed.

Lemma relogged_token u token clock :
  relogged u token clock !! "token" = Some (VStr token).
Proof.
  unfold relogged. apply updated_lookup_set; [done|]. apply lookup_singleton_eq.
Qed.

(** The outcome of a login that succeeded. *)
Lemma login_success data body token clock st d data' :
  login hashPassword data body token clock = (Success st d, data') →
  ∃ pw user i target,
    st = 200%nat ∧
    userDB.getByEmail data (body !! "email") = Some user ∧
    body !! "password" = Some (VStr pw) ∧
    user !! "password" = Some (VStr (hashPassword pw)) ∧
    findIndex_id (users data) (user !! "id") = Some (i, target) ∧
    d = auth_data (relogged target token clock) ∧
    data' = mkDB (<[i := relogged target token clock]> (users data)) (studySessions data).
Proof.
  unfold login. destruct (negb _ || negb _); [done|].
  destruct (userDB.getByEmail data (body !! "email")) as [user|] eqn:Eg; [|done].
  destruct (body !! "password") as [[| | |pw]|]; try done.
  destruct (decide _) as [Hne|Heq]; [done|]. apply dec_stable in Heq.
  unfold userDB.update.
  destruct (findIndex_id (users data) (user !! "id")) as [[i target]|] eqn:Ef; [|done].
  intros [= <- <- <-]. by exists pw, user, i, target.
Qed.

Lemma login_failure data body token clock st e data' :
  login hashPassword data body token clock = (Failure st e, data') → data' = data.
Proof.
  unfold login. destruct (negb _ || negb _); [by intros [= _ _ <-]|].
  destruct (userDB.getByEmail data (body !! "email")) as [user|]; [|by intros [= _ _ <-]].
  destruct (body !! "password") as [[| | |pw]|]; try by intros [= _ _ <-].
  destruct (decide _); [by intros [= _ _ <-]|].
  unfold userDB.update.
  destruct (findIndex_id (users data) (user !! "id")) as [[i target]|];
    by intros [= _ _ <-].
Qed.

Lemma getByEmail_Some data email user :
  userDB.getByEmail data email = Some user →
  ∃ i, users data !! i = Some user ∧ user !! "email" = email.
Proof.
  unfold userDB.getByEmail. destruct (list_find _ _) as [[i x]|] eqn:E; [|done].
  intros [= ->]. apply list_find_Some in E as (? & ? & _). by exists i.
Qed.

(** With pairwise different ids, the user a login rewrites is the user
    found by the e-mail address. *)
Lemma login_target_is_user data email user i target :
  user_ids_unique data →
  userDB.getByEmail data email = Some user →
  findIndex_id (users data) (user !! "id") = Some (i, target) →
  target = user.
Proof.
  intros Hu (j & Hj & _)%getByEmail_Some (Hi & Hid)%findIndex_id_Some.
  assert (i = j) as ->; [|congruence].
  apply (NoDup_lookup _ i j (user !! "id") Hu); rewrite list_lookup_fmap.
  - rewrite Hi. simpl. by rewrite Hid.
  - by rewrite Hj.
Qed.

(** X14. A login either fails and leaves the file as it is, or answers 200
    with the drawn token. It succeeds only when the body's password is a
    string whose hash is the stored password of the first user with the
    body's e-mail address. It never touches a session, keeps the number of
    users, changes at most one user and in that user nothing but [token]
    and [updatedAt]; with pairwise different ids the answer shows the user
    with that e-mail address. *)
Theorem login_outcome
    (data : DB) (body : JSObject) (token : string) (clock : Clock)
    (resp : Response AuthData) (data' : DB) :
  login hashPassword data body token clock = (resp, data') →
  studySessions data' = studySessions data ∧
  length (users data') = length (users data) ∧
  match resp with
  | Failure _ _ => data' = data
  | Success st d =>
    st = 200%nat ∧ a_token d = Some (VStr token) ∧
    (∃ pw user,
       userDB.getByEmail data (body !! "email") = Some user ∧
       body !! "password" = Some (VStr pw) ∧
       user !! "password" = Some (VStr (hashPassword pw))) ∧
    (∀ j u, users data !! j = Some u →
       ∃ u', users data' !! j = Some u' ∧
             ∀ k, k ≠ "token" → k ≠ "updatedAt" → u' !! k = u !! k) ∧
    (∀ i j, users data' !! i ≠ users data !! i →
            users data' !! j ≠ users data !! j → i = j) ∧
    (user_ids_unique data → a_email d = body !! "email")
  end.
Proof.
  destruct resp as [st d|st e]; intros Hl.
  - apply login_success in Hl
      as (pw & user & i & target & -> & Hg & Hp & Hh & Hf & -> & ->).
    pose proof (findIndex_id_Some _ _ _ _ Hf) as [Hi Hid].
    cbn [users studySessions]. split; [done|]. split; [apply length_insert|].
    split; [done|]. split; [apply relogged_token|]. split; [by exists pw, user|].
    split; [|split].
    + intros j u Hj. destruct (decide (j = i)) as [->|Hne].
      * rewrite Hi in Hj. injection Hj as <-.
        eexists. split; [apply list_lookup_insert_eq; by eapply lookup_lt_Some|].
        intros k Hk1 Hk2. by apply relogged_lookup.
      * exists u. by rewrite list_lookup_insert_ne.
    + intros i1 i2 H1 H2.
      destruct (decide (i1 = i)) as [->|N1];
        [|by rewrite list_lookup_insert_ne in H1].
      destruct (decide (i2 = i)) as [->|N2];
        [done|by rewrite list_lookup_insert_ne in H2].
    + intros Hu. rewrite (login_target_is_user _ _ _ _ _ Hu Hg Hf).
      unfold auth_data. cbn [a_email]. rewrite relogged_lookup by done.
      by apply getByEmail_Some in Hg as (? & _ & ?).
  - apply login_failure in Hl as ->. done.
Qed.

(** X12. A registration with a string as e-mail address, and any login,
    keep the e-mail addresses of the stored users pairwise different. (A
    registration with an array or an object as address is never found
    equal to a stored one, so the property is one of strings.) *)
Theorem auth_keeps_emails_unique
    (data : DB) (body : JSObject) (token : string) (clock : Clock)
    (resp : Response AuthData) (data' : DB) :
  emails_unique data →
  (register hashPassword data body token clock = (resp, data') ∧
   is_string (body !! "email") = true) ∨
  login hashPassword data body token clock = (resp, data') →
  emails_unique data'.
Proof.
  intros Hu [[Hr _]|Hl].
  - by eapply register_keeps_emails_unique.
  - destruct resp as [st d|st e].
    + apply login_success in Hl
        as (pw & user & i & target & -> & Hg & Hp & Hh & Hf & -> & ->).
      apply findIndex_id_Some in Hf as [Hi _].
      unfold emails_unique in *. cbn [users].
      rewrite list_fmap_insert, relogged_lookup by done.
      rewrite list_insert_id; [done|]. by rewrite list_lookup_fmap, Hi.
    + by apply login_failure in Hl as ->.
Qed.

(** X15. Registering with a string as e-mail address and then logging in
    with the same address and password succeeds, when the id drawn for the
    new user was not in use: the login answers 200 for the user just
    created, with the token drawn for the login. A password with another
    hash is answered 401 and changes nothing. (An array or an object as
    address is never found again, so the property is one of strings.) *)
Theorem register_then_login
    (data : DB) (body body2 : JSObject) (token token2 : string) (clock clock2 : Clock)
    (st : nat) (d : AuthData) (data' : DB) :
  register hashPassword data body token clock = (Success st d, data') →
  is_string (body !! "email") = true →
  user_id_fresh data (Some (VStr (now_ms clock))) →
  body2 !! "email" = body !! "email" →
  (body2 !! "password" = body !! "password" →
   ∃ d2 data'',
     login hashPassword data' body2 token2 clock2 = (Success 200 d2, data'') ∧
     a_id d2 = a_id d ∧ a_email d2 = body !! "email" ∧
     a_token d2 = Some (VStr token2)) ∧
  (∀ pw pw2, body !! "password" = Some (VStr pw) →
     body2 !! "password" = Some (VStr pw2) → pw2 ≠ "" →
     hashPassword pw2 ≠ hashPassword pw →
     login hashPassword data' body2 token2 clock2
       = (Failure 401 "Invalid email or password", data')).
Proof.
  intros Hr _ Hfresh He2.
  apply register_success in Hr
    as (pw & u & -> & -> & -> & Hg & [Te Tp]%andb_true_iff & Hp & Hn & He & Hh & Ht & Hi).
  assert (userDB.getByEmail (mkDB (users data ++ [u]) (studySessions data))
                            (body2 !! "email") = Some u) as Hg'.
  { unfold userDB.getByEmail in *. cbn [users].
    destruct (list_find _ (users data)) eqn:Ef; [done|].
    apply list_find_None in Ef.
    rewrite list_find_snoc_fresh; [done| |congruence].
    by rewrite He2. }
  split.
  - intros Hp2. unfold login. rewrite He2, Hp2, Te, Tp. cbn [negb orb].
    rewrite <- He2, Hg', Hp. rewrite decide_False by (by intros Hne).
    unfold userDB.update, findIndex_id. cbn [users]. rewrite Hi.
    rewrite list_find_snoc_fresh; [|by apply Forall_forall|done].
    eexists _, _. split; [reflexivity|]. unfold auth_data. cbn [a_id a_email a_token].
    change (<["updatedAt" := VStr (now_iso clock2)]> (spread u {["token" := VStr token2]}))
      with (relogged u token2 clock2).
    rewrite !relogged_lookup by done. rewrite relogged_token. by rewrite He.
  - intros pw1 pw2 Hp1 Hp2 Hne Hh2. unfold login. rewrite He2, Hp2, Te.
    assert (truthy (Some (VStr pw2)) = true) as ->.
    { simpl. apply negb_true_iff. by apply String.eqb_neq. }
    cbn [negb orb]. rewrite <- He2, Hg'.
    rewrite decide_True; [done|]. rewrite Hh. rewrite Hp in Hp1. congruence.
Qed.

(** X16. A login replaces the token: when ids are pairwise different and
    no other user carried the former token, that token is answered 401
    afterwards; and the new token, when it is not empty and no stored user
    carried it, authenticates the user with the body's e-mail address. *)
Theorem login_rotates_token
    (data : DB) (body : JSObject) (token old : string) (clock : Clock)
    (st : nat) (d : AuthData) (data' : DB) (user : JSObject) :
  login hashPassword data body token clock = (Success st d, data') →
  user_ids_unique data →
  userDB.getByEmail data (body !! "email") = Some user →
  user !! "token" = Some (VStr old) → old ≠ token →
  (∀ u, u ∈ users data → u !! "token" = Some (VStr old) → u !! "id" = user !! "id") →
  verifyToken data' (Some old) = Failure 401 "Invalid token" ∨ old = "" ∧
  verifyToken data' (Some old) = Failure 401 "No token provided".
Proof.
  intros Hl Hu Hg Hold Hne Honly.
  apply login_success in Hl
    as (pw & user' & i & target & -> & Hg' & Hp & Hh & Hf & -> & ->).
  rewrite Hg in Hg'. injection Hg' as <-.
  pose proof (login_target_is_user _ _ _ _ _ Hu Hg Hf) as ->.
  pose proof (findIndex_id_Some _ _ _ _ Hf) as [Hi _].
  unfold verifyToken, userDB.getAll. cbn [users].
  destruct (String.eqb old "") eqn:Eo; [right; by apply String.eqb_eq in Eo|].
  left.
  assert (list_find (λ u : JSObject, u !! "token" = Some (VStr old))
            (<[i := relogged user token clock]> (users data)) = None) as ->; [|done].
  apply list_find_None, Forall_forall. intros y Hy Hty.
  apply list_elem_of_lookup in Hy as [j Hj].
  destruct (decide (j = i)) as [->|Hji].
  - rewrite list_lookup_insert_eq in Hj by (by eapply lookup_lt_Some).
    injection Hj as <-. rewrite relogged_token in Hty. congruence.
  - rewrite list_lookup_insert_ne in Hj by done.
    apply Hji. apply (NoDup_lookup _ j i (user !! "id") Hu); rewrite list_lookup_fmap.
    + rewrite Hj. simpl. f_equal. apply Honly; [by eapply list_elem_of_lookup_2|done].
    + by rewrite Hi.
Qed.

(** X17. The token handed out by a login authenticates the user who
    logged in: when ids are pairwise different, the token is not empty and
    no stored user carried it, [verifyToken] answers with a user whose
    e-mail address is the body's and whose token is the new one. *)
Theorem login_then_verifyToken
    (data : DB) (body : JSObject) (token : string) (clock : Clock)
    (st : nat) (d : AuthData) (data' : DB) :
  login hashPassword data body token clock = (Success st d, data') →
  user_ids_unique data → token ≠ "" → token_fresh data token →
  ∃ u, verifyToken data' (Some token) = Success 200 u ∧
       u !! "email" = body !! "email" ∧ auth_data u = d.
Proof.
  intros Hl Hu Hne Hfresh.
  apply login_success in Hl
    as (pw & user & i & target & -> & Hg & Hp & Hh & Hf & -> & ->).
  pose proof (login_target_is_user _ _ _ _ _ Hu Hg Hf) as ->.
  pose proof (findIndex_id_Some _ _ _ _ Hf) as [Hi _].
  exists (relogged user token clock). split; [|split; [|done]].
  - unfold verifyToken, userDB.getAll. cbn [users].
    apply String.eqb_neq in Hne. rewrite Hne.
    assert (list_find (λ u : JSObject, u !! "token" = Some (VStr token))
              (<[i := relogged user token clock]> (users data))
            = Some (i, relogged user token clock)) as ->; [|done].
    apply list_find_Some. split; [|split].
    + apply list_lookup_insert_eq. by eapply lookup_lt_Some.
    + apply relogged_token.
    + intros j y Hj Hji. rewrite list_lookup_insert_ne in Hj by lia.
      apply Hfresh. by eapply list_elem_of_lookup_2.
  - rewrite relogged_lookup by done.
    by apply getByEmail_Some in Hg as (? & _ & ?).
Qed.

Lemma register_ok data body token clock :
  truthy (body !! "name") && truthy (body !! "email") && truthy (body !! "password")
    = true →
  userDB.getByEmail data (body !! "email") = None →
  is_string (body !! "password") = true →
  ∃ d data', register hashPassword data body token clock = (Success 201 d, data').
Proof.
  intros [[Tn Te]%andb_true_iff Tp]%andb_true_iff Hg Hs.
  unfold register. rewrite Tn, Te, Tp, Hg. cbn [negb orb].
  destruct (body !! "password") as [[| | |pw]|]; try done. by eexists _, _.
Qed.

Lemma login_ok data body token clock user pw :
  truthy (body !! "email") && truthy (body !! "password") = true →
  userDB.getByEmail data (body !! "email") = Some user →
  body !! "password" = Some (VStr pw) →
  user !! "password" = Some (VStr (hashPassword pw)) →
  ∃ d data', login hashPassword data body token clock = (Success 200 d, data').
Proof.
  intros [Te Tp]%andb_true_iff Hg Hp Hh.
  unfold login. rewrite Te, Tp, Hg, Hp. cbn [negb orb].
  rewrite decide_False by (by intros Hne).
  unfold userDB.update.
  destruct (findIndex_id (users data) (user !! "id")) as [[i target]|] eqn:Ef;
    [by eexists _, _|].
  apply getByEmail_Some in Hg as (j & Hj & _).
  unfold findIndex_id in Ef. apply list_find_None in Ef. rewrite Forall_forall in Ef.
  exfalso. apply (Ef user); [by eapply list_elem_of_lookup_2|done].
Qed.

End AuthExtras.

Section AuthWitnesses.
Import Database Server Auth Invariants AuthScenarios.

Lemma user_ids_unique_check data :
  bool_decide (NoDup ((λ u : JSObject, u !! "id") <$> users data)) = true →
  user_ids_unique data.
Proof. apply bool_decide_eq_true_1. Qed.

Lemma emails_unique_check data :
  bool_decide (NoDup ((λ u : JSObject, u !! "email") <$> users data)) = true →
  emails_unique data.
Proof. apply bool_decide_eq_true_1. Qed.

Lemma user_id_fresh_check data id :
  forallb (λ u : JSObject, bool_decide (u !! "id" ≠ id)) (users data) = true →
  user_id_fresh data id.
Proof.
  intros Hb u Hu. rewrite forallb_forall in Hb.
  apply list_elem_of_In, Hb in Hu. by apply bool_decide_eq_true in Hu.
Qed.

Lemma token_fresh_check data token :
  forallb (λ u : JSObject, bool_decide (u !! "token" ≠ Some (VStr token))) (users data)
    = true →
  token_fresh data token.
Proof.
  intros Hb u Hu. rewrite forallb_forall in Hb.
  apply list_elem_of_In, Hb in Hu. by apply bool_decide_eq_true in Hu.
Qed.

Lemma register_cy_ok :
  ∃ d data',
    register hash_tagged auth_db register_cy "n3wt0k3n" clock_cy = (Success 201 d, data').
Proof. apply register_ok; compute_done. Qed.

Lemma login_ana_ok :
  ∃ d data',
    login hash_tagged auth_db login_ana "n3wt0k3n" clock_later = (Success 200 d, data').
Proof. apply (login_ok _ _ _ _ _ ana "pw-ana"); compute_done. Qed.

Lemma register_outcome_witness :
  ∃ d data',
    register hash_tagged auth_db register_cy "n3wt0k3n" clock_cy = (Success 201 d, data') ∧
    studySessions data' = studySessions auth_db ∧
    ∃ u, users data' = users auth_db ++ [u] ∧
         u !! "password" = Some (VStr (hash_tagged "pw-cy")).
Proof.
  destruct register_cy_ok as (d & data' & E). exists d, data'. split; [exact E|].
  destruct (register_outcome hash_tagged _ _ _ _ _ _ E)
    as (Hs & _ & pw & u & Hu & _ & _ & Hp & _ & _ & Hh & _).
  split; [exact Hs|]. exists u. split; [exact Hu|].
  assert (pw = "pw-cy") as <-; [|exact Hh].
  assert (register_cy !! "password" = Some (VStr "pw-cy")) as Hp' by compute_done.
  congruence.
Defined.

Lemma register_same_email_rejected_witness :
  ∃ d data' e,
    register hash_tagged auth_db register_cy "n3wt0k3n" clock_cy = (Success 201 d, data') ∧
    register hash_tagged data' login_cy "0th3r" clock_later = (Failure 400 e, data').
Proof.
  destruct register_cy_ok as (d & data' & E).
  destruct (register_same_email_rejected hash_tagged auth_db register_cy login_cy
              "n3wt0k3n" "0th3r" clock_cy clock_later _ _ _ E) as [e He];
    [compute_done|compute_done|].
  by exists d, data', e.
Defined.

Lemma auth_keeps_emails_unique_witness :
  ∃ d data',
    register hash_tagged auth_db register_cy "n3wt0k3n" clock_cy = (Success 201 d, data') ∧
    emails_unique data'.
Proof.
  destruct register_cy_ok as (d & data' & E). exists d, data'. split; [exact E|].
  apply (auth_keeps_emails_unique hash_tagged auth_db register_cy "n3wt0k3n" clock_cy
           (Success 201 d) data'); [apply emails_unique_check; compute_done|].
  left. split; [exact E|compute_done].
Defined.

Lemma register_then_verifyToken_witness :
  ∃ d data' u,
    register hash_tagged auth_db register_cy "n3wt0k3n" clock_cy = (Success 201 d, data') ∧
    verifyToken data' (Some "n3wt0k3n") = Success 200 u ∧
    u !! "email" = register_cy !! "email".
Proof.
  destruct register_cy_ok as (d & data' & E).
  destruct (register_then_verifyToken hash_tagged _ _ _ _ _ _ _ E)
    as (u & Hv & _ & He & _); [done|apply token_fresh_check; compute_done|].
  by exists d, data', u.
Defined.

Lemma login_outcome_witness :
  ∃ d data',
    login hash_tagged auth_db login_ana "n3wt0k3n" clock_later = (Success 200 d, data') ∧
    studySessions data' = studySessions auth_db ∧
    a_token d = Some (VStr "n3wt0k3n") ∧
    a_email d = login_ana !! "email".
Proof.
  destruct login_ana_ok as (d & data' & E). exists d, data'. split; [exact E|].
  destruct (login_outcome hash_tagged _ _ _ _ _ _ E)
    as (Hs & _ & _ & Ht & _ & _ & _ & He).
  split; [exact Hs|]. split; [exact Ht|].
  apply He, user_ids_unique_check. compute_done.
Defined.

Lemma register_then_login_witness :
  ∃ d data' d2 data'',
    register hash_tagged auth_db register_cy "n3wt0k3n" clock_cy = (Success 201 d, data') ∧
    login hash_tagged data' login_cy "l0g1n" clock_later = (Success 200 d2, data'') ∧
    a_id d2 = a_id d.
Proof.
  destruct register_cy_ok as (d & data' & E).
  destruct (register_then_login hash_tagged auth_db register_cy login_cy
              "n3wt0k3n" "l0g1n" clock_cy clock_later _ _ _ E) as [Hok _];
    [compute_done|apply user_id_fresh_check; compute_done|compute_done|].
  destruct Hok as (d2 & data'' & E2 & Hid & _); [compute_done|].
  by exists d, data', d2, data''.
Defined.

Lemma login_rotates_token_witness :
  ∃ d data',
    login hash_tagged auth_db login_ana "n3wt0k3n" clock_later = (Success 200 d, data') ∧
    verifyToken data' (Some "t0k3n") = Failure 401 "Invalid token".
Proof.
  destruct login_ana_ok as (d & data' & E). exists d, data'. split; [exact E|].
  destruct (login_rotates_token hash_tagged auth_db login_ana "n3wt0k3n" "t0k3n"
              clock_later _ _ _ ana E) as [H|[H _]];
    [apply user_ids_unique_check; compute_done|compute_done|compute_done|done| |exact H|done].
  intros u Hu Ht. unfold auth_db in Hu. cbn [users] in Hu.
  apply elem_of_cons in Hu as [->|Hu]; [done|].
  apply list_elem_of_singleton in Hu as ->. exfalso. revert Ht. compute_done.
Defined.

Lemma login_then_verifyToken_witness :
  ∃ d data' u,
    login hash_tagged auth_db login_ana "n3wt0k3n" clock_later = (Success 200 d, data') ∧
    verifyToken data' (Some "n3wt0k3n") = Success 200 u ∧
    u !! "email" = login_ana !! "email".
Proof.
  destruct login_ana_ok as (d & data' & E).
  destruct (login_then_verifyToken hash_tagged _ _ _ _ _ _ _ E) as (u & Hv & He & _);
    [apply user_ids_unique_check; compute_done|done|
     apply token_fresh_check; compute_done|].
  by exists d, data', u.
Defined.

End AuthWitnesses.

(** * Further properties of the streak and of the aggregation *)

Section StreakExtras.
Import JSDate Model Scenarios.

Lemma ge_transitive : Transitive (flip Z.le).
Proof. intros x y z. unfold flip. lia. Qed.

Lemma ge_total : Total (flip Z.le).
Proof. intros x y. unfold flip. lia. Qed.

Lemma ge_antisymm : AntiSymm (=) (flip Z.le).
Proof. intros x y. unfold flip. lia. Qed.

Lemma setHours0_mono a b : a ≤ b → setHours0 a ≤ setHours0 b.
Proof.
  intros Hab. unfold setHours0, MS_PER_DAY.
  apply Z.mul_le_mono_nonneg_l; [lia|]. apply Z.div_le_mono; lia.
Qed.

(** The first date of the sorted list is a latest one. *)
Lemma sort_date_desc_head sessions d rest :
  sort_date_desc sessions = d :: rest →
  d ∈ date <$> sessions ∧ ∀ d', d' ∈ date <$> sessions → d' ≤ d.
Proof.
  unfold sort_date_desc. intros E.
  pose proof (merge_sort_Permutation (flip Z.le) (date <$> sessions)) as Hp.
  pose proof (@StronglySorted_merge_sort _ (flip Z.le) _ ge_transitive ge_total
                (date <$> sessions)) as Hs.
  rewrite E in Hp, Hs. apply StronglySorted_cons in Hs as [Hall _].
  split.
  - rewrite <- Hp. apply elem_of_cons. by left.
  - intros d' Hd'. rewrite <- Hp in Hd'.
    apply elem_of_cons in Hd' as [->|Hd']; [lia|].
    rewrite Forall_forall in Hall. by apply Hall.
Qed.

Lemma sort_date_desc_nil sessions : sort_date_desc sessions = [] → sessions = [].
Proof.
  unfold sort_date_desc. intros E.
  pose proof (merge_sort_Permutation (flip Z.le) (date <$> sessions)) as Hp.
  rewrite E in Hp. apply Permutation_nil_l in Hp. symmetry in Hp.
  by apply fmap_nil_inv in Hp.
Qed.

Lemma hasSessionToday_sorted sessions now :
  hasSessionToday (sort_date_desc sessions) now = true ↔
  ∃ d, d ∈ date <$> sessions ∧ setHours0 d = setHours0 now.
Proof.
  rewrite hasSessionToday_spec. unfold sort_date_desc.
  by setoid_rewrite (merge_sort_Permutation (flip Z.le) (date <$> sessions)).
Qed.

(** X18. [currentStreak] is 1 when the latest session of the owner falls
    on today or on yesterday, and 0 otherwise; it is never more than 1,
    however long the run of days behind that session is. *)
Theorem currentStreak_latest_session
    (coll : Collection) (userId : ObjectId) (now : Z) (d : Z) :
  d ∈ date <$> find_user coll userId →
  (∀ d', d' ∈ date <$> find_user coll userId → d' ≤ d) →
  currentStreak (getUserStreak coll userId now) =
  if decide (setHours0 d = setHours0 now ∨ setHours0 d = setHours0 now - MS_PER_DAY)
  then 1%nat else 0%nat.
Proof.
  intros Hd Hmax. unfold getUserStreak.
  destruct (sort_date_desc (find_user coll userId)) as [|d0 rest] eqn:E.
  { apply sort_date_desc_nil in E. rewrite E in Hd. by apply elem_of_nil in Hd. }
  destruct (sort_date_desc_head _ _ _ E) as [Hd0 Hmax0].
  assert (d0 = d) as -> by (pose proof (Hmax _ Hd0); pose proof (Hmax0 _ Hd); lia).
  rewrite currentStreak_first_date, anchor_rule. rewrite <- E.
  destruct (hasSessionToday (sort_date_desc (find_user coll userId)) now) eqn:Ht.
  - apply hasSessionToday_sorted in Ht as (d1 & Hd1 & Hday).
    pose proof (setHours0_mono _ _ (Hmax _ Hd1)) as Hle. rewrite Hday in Hle.
    destruct (Z.eqb_spec (setHours0 d) (setHours0 now)) as [Heq|Hneq].
    + by rewrite decide_True by (by left).
    + rewrite decide_False; [done|]. unfold MS_PER_DAY. lia.
  - destruct (Z.eqb_spec (setHours0 d) (setHours0 now - MS_PER_DAY)) as [Heq|Hneq].
    + by rewrite decide_True by (by right).
    + rewrite decide_False; [done|]. intros [Htoday|Hy]; [|done].
      assert (hasSessionToday (sort_date_desc (find_user coll userId)) now = true)
        as Ht'; [|congruence].
      apply hasSessionToday_sorted. by exists d.
Qed.

Lemma currentStreak_latest_session_witness :
  currentStreak (getUserStreak five_days "u1" (at_time 2024 1 6 7 0)) = 1%nat.
Proof.
  rewrite (currentStreak_latest_session five_days "u1" (at_time 2024 1 6 7 0)
             (at_time 2024 1 5 7 0)).
  - compute_done.
  - compute_done.
  - apply Forall_forall. compute_done.
Defined.

Lemma length_sort_date_desc sessions :
  length (sort_date_desc sessions) = length sessions.
Proof.
  unfold sort_date_desc.
  rewrite (Permutation_length (merge_sort_Permutation (flip Z.le) (date <$> sessions))).
  apply length_fmap.
Qed.

Lemma streak_loop_bounded currentDate dates :
  ∀ i v, (v_temp v ≤ i)%nat → (v_max v ≤ i)%nat →
    (v_temp (streak_loop currentDate i dates v) ≤ i + length dates)%nat ∧
    (v_max (streak_loop currentDate i dates v) ≤ i + length dates)%nat.
Proof.
  induction dates as [|d rest IH]; intros i v Ht Hm; cbn [streak_loop length]; [lia|].
  destruct (IH (S i) (streak_step currentDate i d v)) as [H1 H2].
  - unfold streak_step. destruct (_ =? _); cbn; lia.
  - unfold streak_step. destruct (_ =? _); cbn; lia.
  - lia.
Qed.

(** X19. [maxStreak] never exceeds the number of sessions of the owner. *)
Theorem maxStreak_le_sessions (coll : Collection) (userId : ObjectId) (now : Z) :
  (maxStreak (getUserStreak coll userId now) ≤ length (find_user coll userId))%nat.
Proof.
  unfold getUserStreak, streak_of_dates.
  rewrite <- (length_sort_date_desc (find_user coll userId)).
  destruct (sort_date_desc (find_user coll userId)) as [|d rest]; [simpl; lia|].
  cbn [maxStreak].
  destruct (streak_loop_bounded (anchor (d :: rest) now) (d :: rest) 0 (mkVars 0 0 0))
    as [H1 H2]; [cbn; lia..|].
  rewrite Nat.add_0_l in H1, H2. lia.
Qed.

(** X20. The streak depends on the dates of the owner's sessions only, not
    on their ids nor on the order in which they were stored: two
    collections in which the owner's dates are the same up to order give
    the same streak. *)
Theorem streak_order_independent
    (coll1 coll2 : Collection) (userId : ObjectId) (now : Z) :
  date <$> find_user coll1 userId ≡ₚ date <$> find_user coll2 userId →
  getUserStreak coll1 userId now = getUserStreak coll2 userId now.
Proof.
  intros Hp. unfold getUserStreak. f_equal. unfold sort_date_desc.
  apply (@Sorted_unique _ (flip Z.le) ge_transitive ge_antisymm).
  - apply (@Sorted_merge_sort _ (flip Z.le) _ ge_total).
  - apply (@Sorted_merge_sort _ (flip Z.le) _ ge_total).
  - by rewrite !merge_sort_Permutation.
Qed.

Lemma Permutation_check (l1 l2 : list Z) :
  merge_sort Z.le l1 = merge_sort Z.le l2 → l1 ≡ₚ l2.
Proof.
  intros E. rewrite <- (merge_sort_Permutation Z.le l1), E.
  apply merge_sort_Permutation.
Qed.

Lemma streak_order_independent_witness :
  getUserStreak ControllerScenarios.three_days_shuffled "u1" (at_time 2024 1 3 20 0)
  = getUserStreak three_days "u1" (at_time 2024 1 3 20 0).
Proof.
  apply streak_order_independent. apply Permutation_check. compute_done.
Defined.

Lemma streak_loop_all_match currentDate dates :
  ∀ i v,
    setHours0 <$> dates
      = (λ k : nat, setHours0 currentDate - Z.of_nat k * MS_PER_DAY)
          <$> seq i (length dates) →
    v_temp (streak_loop currentDate i dates v) = (v_temp v + length dates)%nat ∧
    v_max (streak_loop currentDate i dates v) = v_max v.
Proof.
  induction dates as [|d rest IH]; intros i v Hrun; cbn [streak_loop length]; [lia|].
  cbn in Hrun. injection Hrun as Hd Hrest.
  destruct (IH (S i) (streak_step currentDate i d v) Hrest) as [H1 H2].
  rewrite H1, H2. unfold streak_step.
  rewrite setHours0_addDays. unfold addDays.
  rewrite (proj2 (Z.eqb_eq _ _)) by lia. cbn. lia.
Qed.

(** X21. When the calendar days of the owner's sessions, latest first, are
    the anchor day, the day before it, and so on without a gap or a
    repeated day, [maxStreak] is the number of sessions (the length of the
    run). *)
Theorem unbroken_run_maxStreak (coll : Collection) (userId : ObjectId) (now : Z) :
  let dates := sort_date_desc (find_user coll userId) in
  setHours0 <$> dates
    = (λ k : nat, setHours0 (anchor dates now) - Z.of_nat k * MS_PER_DAY)
        <$> seq 0 (length dates) →
  maxStreak (getUserStreak coll userId now) = length (find_user coll userId).
Proof.
  intros dates Hrun. unfold getUserStreak, streak_of_dates. fold dates.
  rewrite <- (length_sort_date_desc (find_user coll userId)). fold dates.
  destruct dates as [|d rest] eqn:E; [done|]. cbn [maxStreak].
  destruct (streak_loop_all_match (anchor (d :: rest) now) (d :: rest) 0
              (mkVars 0 0 0) Hrun) as [H1 H2].
  rewrite H1, H2. cbn. lia.
Qed.

Lemma unbroken_run_maxStreak_witness :
  maxStreak (getUserStreak five_days "u1" (at_time 2024 1 6 7 0)) = 5%nat.
Proof.
  rewrite (unbroken_run_maxStreak five_days "u1" (at_time 2024 1 6 7 0)); compute_done.
Defined.

End StreakExtras.

Section AggregationExtras.
Import JSDate Model Invariants Scenarios.

Lemma foldl_add_from (l : list Z) : ∀ a, foldl Z.add a l = a + foldl Z.add 0 l.
Proof.
  induction l as [|x l IH]; intros a; cbn [foldl]; [lia|].
  rewrite (IH (a + x)), (IH (0 + x)). lia.
Qed.

Lemma sum_Z_cons x l : sum_Z (x :: l) = x + sum_Z l.
Proof. unfold sum_Z. cbn [foldl]. rewrite foldl_add_from. lia. Qed.

Lemma sum_Z_bounds lo hi l :
  Forall (λ x, lo ≤ x ≤ hi) l →
  Z.of_nat (length l) * lo ≤ sum_Z l ≤ Z.of_nat (length l) * hi.
Proof.
  induction 1 as [|x l Hx Hl IH]; [done|].
  rewrite sum_Z_cons, length_cons. lia.
Qed.

Lemma sum_Z_sublist l1 l2 :
  l1 `sublist_of` l2 → Forall (λ x, 0 ≤ x) l2 → sum_Z l1 ≤ sum_Z l2.
Proof.
  induction 1 as [|x l1 l2 Hs IH|x l1 l2 Hs IH]; intros Hall; [done|..];
    apply Forall_cons in Hall as [Hx Hall]; rewrite ?sum_Z_cons;
    specialize (IH Hall); lia.
Qed.

Lemma matched_in_coll (coll : Collection) (P : StudySession → Prop) `{∀ s, Decision (P s)} s :
  s ∈ filter P (snd <$> map_to_list coll) → ∃ id, coll !! id = Some s.
Proof.
  intros [_ Hs]%list_elem_of_filter.
  apply list_elem_of_fmap in Hs as ([id s'] & -> & Hin).
  exists id. by apply elem_of_map_to_list.
Qed.

Lemma schema_valid_durations (coll : Collection) (P : StudySession → Prop) `{∀ s, Decision (P s)} :
  schema_valid coll →
  Forall (λ x, 1 ≤ x ≤ 1440) (duration <$> filter P (snd <$> map_to_list coll)).
Proof.
  intros Hv. apply Forall_fmap, Forall_forall. intros s Hs.
  apply matched_in_coll in Hs as [id Hid]. apply Hv in Hid.
  unfold Controller.validate in Hid.
  do 4 (apply andb_true_iff in Hid as [Hid _]).
  unfold Controller.valid_duration in Hid.
  apply andb_true_iff in Hid as [H1 H2]. simpl. lia.
Qed.

Lemma Qc_quotient (t n : Z) :
  ((Qc_of_Z t / Qc_of_Z n)%Qc == inject_Z t / inject_Z n)%Q.
Proof.
  unfold Qcdiv, Qcmult, Qcinv, Q2Qc. cbn [this]. rewrite !Qred_correct. reflexivity.
Qed.

Lemma matchStage_range_sublist userId startDate endDate (l : list StudySession) :
  filter (matchStage userId startDate endDate) l
  `sublist_of` filter (matchStage userId None None) l.
Proof.
  induction l as [|s l IH]; [done|]. rewrite !filter_cons.
  destruct (decide (matchStage userId startDate endDate s)) as [[Hu Hr]|Hn].
  - rewrite decide_True by done. by apply sublist_skip.
  - destruct (decide (matchStage userId None None s)); [by apply sublist_cons|done].
Qed.

(** X22. In a collection whose documents pass the validators of the
    schema, the totals of any owner and range satisfy
    [totalSessions <= totalDuration <= 1440 * totalSessions], the average
    lies between 1 and 1440 when there is a session, and a range never
    counts more sessions nor more minutes than the whole history. *)
Theorem getUserStats_bounds
    (coll : Collection) (userId : ObjectId) (startDate endDate : option Z) :
  schema_valid coll →
  let r := getUserStats coll userId startDate endDate in
  let whole := getUserStats coll userId None None in
  Z.of_nat (totalSessions r) ≤ totalDuration r ∧
  totalDuration r ≤ 1440 * Z.of_nat (totalSessions r) ∧
  ((0 < totalSessions r)%nat →
     (1 <= averageDuration r)%Q ∧ (averageDuration r <= 1440)%Q) ∧
  (totalSessions r ≤ totalSessions whole)%nat ∧
  totalDuration r ≤ totalDuration whole ∧
  totalSessions whole = length (find_user coll userId).
Proof.
  intros Hv.
  assert (∀ sd ed,
            let m := filter (matchStage userId sd ed) (snd <$> map_to_list coll) in
            totalSessions (getUserStats coll userId sd ed) = length m ∧
            totalDuration (getUserStats coll userId sd ed) = sum_Z (duration <$> m) ∧
            ((0 < length m)%nat →
               averageDuration (getUserStats coll userId sd ed)
               = (Qc_of_Z (sum_Z (duration <$> m)) / Qc_of_Z (Z.of_nat (length m)))%Qc))
    as Hshape.
  { intros sd ed m. unfold getUserStats. fold m.
    destruct m as [|s m']; cbn;
      [split; [done|split; [done|intros Hlt; by apply Nat.lt_irrefl in Hlt]]|].
    split; [done|]. split; [done|]. intros _. by rewrite length_fmap. }
  cbv zeta.
  destruct (Hshape startDate endDate) as (En & Et & Ea).
  destruct (Hshape None None) as (En' & Et' & _).
  pose proof (schema_valid_durations coll (matchStage userId startDate endDate) Hv) as Hd.
  pose proof (sum_Z_bounds 1 1440 _ Hd) as Hb. rewrite length_fmap in Hb.
  assert (filter (matchStage userId startDate endDate) (snd <$> map_to_list coll)
          `sublist_of` filter (matchStage userId None None) (snd <$> map_to_list coll))
    as Hsub.
  { apply matchStage_range_sublist. }
  rewrite En, Et, En', Et'.
  split; [lia|]. split; [lia|]. split; [|split; [|split]].
  - intros Hpos. rewrite (Ea Hpos), Qc_quotient.
    assert (0 < inject_Z (Z.of_nat (length (filter (matchStage userId startDate endDate)
                                              (snd <$> map_to_list coll)))))%Q as Hn.
    { rewrite <- (Zlt_Qlt 0). lia. }
    split.
    + apply Qle_shift_div_l; [done|]. change 1%Q with (inject_Z 1).
      rewrite <- inject_Z_mult, <- Zle_Qle. lia.
    + apply Qle_shift_div_r; [done|]. change 1440%Q with (inject_Z 1440).
      rewrite <- inject_Z_mult, <- Zle_Qle. lia.
  - by apply sublist_length.
  - apply sum_Z_sublist; [by apply fmap_sublist|].
    eapply Forall_impl; [apply (schema_valid_durations coll _ Hv)|].
    simpl. intros x Hx. lia.
  - unfold find_user. f_equal. apply list_filter_iff. intros s. unfold matchStage. tauto.
Qed.

Lemma schema_valid_check (coll : Collection) :
  bool_decide (map_Forall (λ (_ : ObjectId) s, Controller.validate s = true) coll) = true →
  schema_valid coll.
Proof. intros Hb. apply bool_decide_eq_true_1 in Hb. exact Hb. Qed.

Lemma getUserStats_bounds_witness :
  let r := getUserStats three_days "u1"
             (Some (at_time 2024 1 2 0 0)) (Some (at_time 2024 1 3 23 59)) in
  Z.of_nat (totalSessions r) ≤ totalDuration r ∧
  totalDuration r ≤ 1440 * Z.of_nat (totalSessions r) ∧
  (totalSessions r ≤ totalSessions (getUserStats three_days "u1" None None))%nat.
Proof.
  destruct (getUserStats_bounds three_days "u1"
              (Some (at_time 2024 1 2 0 0)) (Some (at_time 2024 1 3 23 59)))
    as (H1 & H2 & _ & H3 & _); [apply schema_valid_check; compute_done|].
  cbv zeta. split; [exact H1|]. split; [exact H2|exact H3].
Defined.

Lemma group_by_date_from (l : list StudySession) :
  ∀ (m : gmap Z Z) (k : Z),
    foldl (λ sessionsByDate s,
             <[Controller.dateString s :=
                 default 0 (sessionsByDate !! Controller.dateString s) + duration s]>
               sessionsByDate) m l !! k
    = match filter (λ s, Controller.dateString s = k) l with
      | [] => m !! k
      | ss => Some (default 0 (m !! k) + sum_Z (duration <$> ss))
      end.
Proof.
  induction l as [|s l IH]; intros m k; [done|].
  cbn [foldl]. rewrite IH, filter_cons.
  destruct (decide (Controller.dateString s = k)) as [<-|Hne].
  - rewrite lookup_insert_eq. cbn [from_option id].
    destruct (filter _ l) as [|s' ss];
      rewrite (fmap_cons duration s), (sum_Z_cons (duration s)).
    + change (sum_Z (duration <$> [])) with 0. f_equal. lia.
    + f_equal. lia.
  - by rewrite lookup_insert_ne.
Qed.

(** X23. The calendar of the statistics answer has, for each UTC day, the
    sum of the durations of the owner's sessions of the last 90 days that
    fall on that day, and no entry for a day without such a session. *)
Theorem calendar_sums_per_day
    (coll : Collection) (userId : ObjectId) (startDate endDate : option Z)
    (now : Z) (day : Z) :
  ∃ d, Controller.getUserStats coll userId startDate endDate now = Success 200 d ∧
       Controller.calendarData d !! day
       = match filter (λ s, Controller.dateString s = day)
                 (filter (λ s, user s = userId ∧ now - 7776000000 ≤ date s)
                         (snd <$> map_to_list coll)) with
         | [] => None
         | ss => Some (sum_Z (duration <$> ss))
         end.
Proof.
  eexists. split; [reflexivity|]. cbn [Controller.calendarData].
  unfold Controller.group_by_date. rewrite group_by_date_from, lookup_empty.
  change (90 * 24 * 60 * 60 * 1000) with 7776000000.
  by destruct (filter _ (filter _ _)).
Qed.

End AggregationExtras.

Section ControllerExtras.
Import Model Controller Queries Invariants Scenarios.
Variable trim : string → string.

(** X24. Create, update and delete keep the collection valid for the
    schema: when every stored document passes the validators (duration
    within 1..1440, subject, notes and tags within their lengths, quality
    absent or within 1..5), so does every document afterwards. *)
Theorem handle_keeps_schema_valid
    (coll : Collection) (req_user : ObjectId) (req : Request)
    (resp : Response (option StudySession)) (coll' : Collection) :
  schema_valid coll →
  handle trim coll req_user req = (resp, coll') →
  schema_valid coll'.
Proof.
  intros Hv. destruct req as [body now newId|id body|id]; unfold handle.
  - unfold createStudySession.
    destruct (b_duration body) as [d|]; [|by intros [= _ <-]].
    destruct (validate _) eqn:Hval; [|by intros [= _ <-]].
    destruct (coll !! newId) as [old|]; intros [= _ <-]; [done|].
    intros id0 doc. rewrite lookup_insert_Some.
    intros [[_ <-]|[_ Hs]]; [done|by eapply Hv].
  - unfold updateStudySession.
    destruct (findOne coll id req_user) as [s0|] eqn:F; [|by intros [= _ <-]].
    apply findOne_Some in F as [Hs0 _].
    destruct (validate _) eqn:Hm; intros [= _ <-]; [|done].
    intros id' doc. rewrite lookup_insert_Some.
    intros [[_ <-]|[_ Hs]]; [exact Hm|by eapply Hv].
  - unfold deleteStudySession.
    destruct (findOne coll id req_user) as [old|]; intros [= _ <-]; [|done].
    intros id' doc. rewrite lookup_delete_Some. intros [_ Hs]. by eapply Hv.
Qed.

(** X25. A document that was created is read back under its id by its
    owner, is owned by the caller and passes the validators; it took a
    free id, every other id reads as before, and deleting it gives the
    former collection back. *)
Theorem create_then_read_then_delete
    (coll : Collection) (req_user : ObjectId) (body : Body) (now : Z)
    (newId : ObjectId) (st : nat) (s : StudySession) (coll' : Collection) :
  createStudySession trim coll req_user body now newId = (Success st s, coll') →
  st = 201%nat ∧ coll !! newId = None ∧
  user s = req_user ∧ validate s = true ∧
  getStudySessionById coll' req_user newId = Success 200 s ∧
  (∀ id, id ≠ newId → coll' !! id = coll !! id) ∧
  deleteStudySession coll' req_user newId = (Success 200 (), coll).
Proof.
  unfold createStudySession.
  destruct (b_duration body) as [d|]; [|done].
  destruct (validate _) eqn:Hval; [|done].
  destruct (coll !! newId) eqn:Hnew; [done|]. intros [= <- <- <-].
  match goal with
  | |- context [<[newId := ?doc]> coll] =>
    assert (findOne (<[newId := doc]> coll) newId req_user = Some doc) as Hfind
      by (apply findOne_Some; by rewrite lookup_insert_eq)
  end.
  split; [done|]. split; [done|]. split; [done|]. split; [done|].
  split; [|split].
  - unfold getStudySessionById. by rewrite Hfind.
  - intros id Hid. by rewrite lookup_insert_ne.
  - unfold deleteStudySession. rewrite Hfind. by rewrite delete_insert_id.
Qed.

Lemma assign_fields_idemp body s :
  assign_fields trim body (assign_fields trim body s) = assign_fields trim body s.
Proof.
  unfold assign_fields. cbn.
  by destruct (b_date body), (b_duration body), (b_subject body), (b_notes body),
              (b_tags body), (b_quality body).
Qed.

(** X26. An update is idempotent: sending the same update again gives the
    same answer and leaves the collection as the first one left it. *)
Theorem update_idempotent
    (coll : Collection) (req_user : ObjectId) (id : ObjectId) (body : Body) :
  updateStudySession trim (updateStudySession trim coll req_user id body).2
                     req_user id body
  = updateStudySession trim coll req_user id body.
Proof.
  unfold updateStudySession at 2 3.
  destruct (findOne coll id req_user) as [s0|] eqn:F.
  - destruct (validate (assign_fields trim body s0)) eqn:Hm; cbn [snd].
    + unfold updateStudySession.
      apply findOne_Some in F as [Hs0 Hu].
      assert (findOne (<[id := assign_fields trim body s0]> coll) id req_user
              = Some (assign_fields trim body s0)) as ->.
      { apply findOne_Some. by rewrite lookup_insert_eq. }
      rewrite assign_fields_idemp, Hm. by rewrite insert_insert_eq.
    + unfold updateStudySession. by rewrite F, Hm.
  - cbn [snd]. unfold updateStudySession. by rewrite F.
Qed.

(** X27. An update whose body carries no field leaves the collection
    exactly as it is. It answers 200 with the stored document when that
    document passes the validators of the schema; and since [save()]
    validates the stored document as a whole, it answers 400 when the
    stored duration is outside 1..1440 or the stored quality outside
    1..5. *)
Theorem update_empty_body
    (coll : Collection) (req_user : ObjectId) (id : ObjectId) (s : StudySession) :
  coll !! id = Some s → user s = req_user →
  (validate s = true →
   updateStudySession trim coll req_user id (mkBody None None None None None None)
   = (Success 200 s, coll)) ∧
  (valid_duration (duration s) = false ∨ valid_quality (quality s) = false →
   updateStudySession trim coll req_user id (mkBody None None None None None None)
   = (Failure 400 "Validation error", coll)).
Proof.
  intros Hs Hu. unfold updateStudySession.
  rewrite (proj2 (findOne_Some coll id req_user s)) by done.
  assert (assign_fields trim (mkBody None None None None None None) s = s) as ->
    by (by destruct s).
  split.
  - intros ->. by rewrite insert_id.
  - intros Hbad. assert (validate s = false) as ->; [|done].
    unfold validate. destruct Hbad as [-> | ->]; [done|].
    by rewrite andb_false_r.
Qed.

(** X28. After a delete that succeeded the id is not found any more, by a
    read or by a second delete (both 404), and every other id reads as
    before. *)
Theorem delete_then_not_found
    (coll : Collection) (req_user : ObjectId) (id : ObjectId) (coll' : Collection) :
  deleteStudySession coll req_user id = (Success 200 (), coll') →
  getStudySessionById coll' req_user id = Failure 404 "Study session not found" ∧
  deleteStudySession coll' req_user id
    = (Failure 404 "Study session not found", coll') ∧
  ∀ id', id' ≠ id → coll' !! id' = coll !! id'.
Proof.
  unfold deleteStudySession at 1.
  destruct (findOne coll id req_user); [|done]. intros [= <-].
  assert (findOne (delete id coll) id req_user = None) as Hnone.
  { unfold findOne. by rewrite lookup_delete_eq. }
  unfold getStudySessionById, deleteStudySession. rewrite Hnone.
  split; [done|]. split; [done|]. intros id' Hne. by rewrite lookup_delete_ne.
Qed.

(** X30. Reading one session under a route parameter: the answer is 200
    with a document only when the parameter casts to the id under which
    the collection holds that document and the caller owns it; it is 500
    when the parameter is no object id; and it is 404 when the parameter
    casts to an id under which there is no document or a document of
    another owner, which is never shown. *)
Theorem read_by_id_outcome
    (castObjectId : string → option ObjectId) (coll : Collection)
    (req_user : ObjectId) (req_params_id : string) :
  match Routes.getStudySessionById castObjectId coll req_user req_params_id with
  | Success st s =>
    st = 200%nat ∧
    ∃ id, castObjectId req_params_id = Some id ∧ coll !! id = Some s ∧ user s = req_user
  | Failure st e =>
    (st = 500%nat ∧ e = "Server error" ∧ castObjectId req_params_id = None) ∨
    (st = 404%nat ∧ e = "Study session not found" ∧
     ∃ id, castObjectId req_params_id = Some id ∧
           ∀ s, coll !! id = Some s → user s ≠ req_user)
  end.
Proof.
  unfold Routes.getStudySessionById.
  destruct (castObjectId req_params_id) as [id|]; [|by left].
  unfold getStudySessionById. destruct (findOne coll id req_user) as [s|] eqn:F.
  - apply findOne_Some in F as [Hs Hu]. split; [done|]. by exists id.
  - right. split; [done|]. split; [done|]. exists id. split; [done|].
    intros s Hs Hu. assert (findOne coll id req_user = Some s) as F'
      by (by apply findOne_Some).
    congruence.
Qed.

End ControllerExtras.

Section ControllerWitnesses.
Import JSDate Model Controller Queries Invariants Scenarios ControllerScenarios.

Lemma handle_keeps_schema_valid_witness :
  schema_valid (handle id three_days "u1" (Update "s1" algebra_body)).2.
Proof.
  apply (handle_keeps_schema_valid id three_days "u1" (Update "s1" algebra_body)
           (handle id three_days "u1" (Update "s1" algebra_body)).1).
  - apply schema_valid_check. compute_done.
  - apply surjective_pairing.
Defined.

Lemma create_then_read_then_delete_witness :
  getStudySessionById (<["s9" := algebra_doc]> three_days) "u1" "s9"
    = Success 200 algebra_doc ∧
  deleteStudySession (<["s9" := algebra_doc]> three_days) "u1" "s9"
    = (Success 200 (), three_days).
Proof.
  destruct (create_then_read_then_delete id three_days "u1" algebra_body
              (at_time 2024 1 3 20 0) "s9" 201 algebra_doc
              (<["s9" := algebra_doc]> three_days))
    as (_ & _ & _ & _ & Hread & _ & Hdel); [compute_done|].
  split; [exact Hread|exact Hdel].
Defined.

(** An empty update of a stored session of 30 minutes is answered 200;
    with a session of 0 minutes in the store it is answered 400. *)
Lemma update_empty_body_witness :
  updateStudySession id three_days "u1" "s1" empty_body
    = (Success 200 (session_on 2024 1 1 10 30), three_days) ∧
  updateStudySession id (<["s0" := session_on 2024 1 1 7 0]> three_days) "u1" "s0"
                     empty_body
    = (Failure 400 "Validation error", <["s0" := session_on 2024 1 1 7 0]> three_days).
Proof.
  split.
  - apply (update_empty_body id three_days "u1" "s1"); compute_done.
  - apply (update_empty_body id (<["s0" := session_on 2024 1 1 7 0]> three_days)
             "u1" "s0" (session_on 2024 1 1 7 0)); [compute_done|compute_done|].
    left. compute_done.
Defined.

(** An owner reads their document under its id, in upper or lower case;
    another caller is answered 404, and a parameter that is no object id
    500. *)
Lemma read_by_id_examples :
  Routes.getStudySessionById cast_hex24 hex_days "u1" "65A1F00000000000000000A2"
    = Success 200 (session_on 2024 1 2 9 30) ∧
  Routes.getStudySessionById cast_hex24 hex_days "u2" "65a1f00000000000000000a2"
    = Failure 404 "Study session not found" ∧
  Routes.getStudySessionById cast_hex24 hex_days "u1" "65a1f00000000000000000a"
    = Failure 500 "Server error".
Proof. repeat split; compute_done. Qed.

Lemma delete_then_not_found_witness :
  getStudySessionById (delete "s1" three_days) "u1" "s1"
    = Failure 404 "Study session not found".
Proof.
  apply (delete_then_not_found three_days "u1" "s1" (delete "s1" three_days)).
  compute_done.
Defined.

End ControllerWitnesses.

Section OwnerIsolation.
Import JSDate Model Controller Invariants Scenarios.

Lemma list_filter_fmap_snd {A B} (P : B → Prop) `{∀ x, Decision (P x)} (l : list (A * B)) :
  filter P (snd <$> l) = snd <$> filter (λ kv, P kv.2) l.
Proof.
  induction l as [|[k x] l IH]; [done|].
  rewrite fmap_cons, !filter_cons. cbn [snd].
  destruct (decide (P x)); by rewrite ?fmap_cons, IH.
Qed.

(** The documents of a collection that satisfy [P], up to order, are the
    documents of the collection filtered by [P]. *)
Lemma values_filter (P : StudySession → Prop) `{∀ x, Decision (P x)} (m : Collection) :
  filter P (snd <$> map_to_list m)
  ≡ₚ snd <$> map_to_list (filter (λ kv : ObjectId * StudySession, P kv.2) m).
Proof.
  rewrite list_filter_fmap_snd. apply fmap_Permutation.
  rewrite map_filter_alt. symmetry. apply map_to_list_to_map.
  eapply sublist_NoDup; [apply (NoDup_fst_map_to_list m)|].
  apply fmap_sublist, sublist_filter.
Qed.

Lemma owner_filter_unchanged (P : StudySession → Prop) `{∀ x, Decision (P x)}
    (coll coll' : Collection) (userId actor : ObjectId) :
  (∀ s, P s → user s = userId) → userId ≠ actor →
  foreign_unchanged actor coll coll' →
  filter P (snd <$> map_to_list coll') ≡ₚ filter P (snd <$> map_to_list coll).
Proof.
  intros HP Hne Hf. rewrite !values_filter.
  assert (filter (λ kv : ObjectId * StudySession, P kv.2) coll'
          = filter (λ kv : ObjectId * StudySession, P kv.2) coll) as ->; [|done].
  apply map_eq. intros id. apply option_eq. intros s.
  rewrite !map_lookup_filter_Some. cbn [snd].
  split; intros [Hs Ps]; (split; [|done]); apply (Hf id s); try done;
    rewrite (HP s Ps); done.
Qed.

Lemma sum_Z_Permutation l1 l2 : l1 ≡ₚ l2 → sum_Z l1 = sum_Z l2.
Proof.
  induction 1 as [|x l1 l2 _ IH|x y l|l1 l2 l3 _ IH1 _ IH2];
    rewrite ?sum_Z_cons; lia.
Qed.

Lemma avg_Permutation l1 l2 : l1 ≡ₚ l2 → avg l1 = avg l2.
Proof.
  intros Hp. unfold avg.
  destruct l1 as [|x l1], l2 as [|y l2]; try done.
  - by apply Permutation_nil_l in Hp.
  - by apply Permutation_nil_r in Hp.
  - by rewrite (sum_Z_Permutation _ _ Hp), (Permutation_length Hp).
Qed.

Lemma getUserStats_Permutation coll coll' userId startDate endDate :
  filter (matchStage userId startDate endDate) (snd <$> map_to_list coll')
  ≡ₚ filter (matchStage userId startDate endDate) (snd <$> map_to_list coll) →
  Model.getUserStats coll' userId startDate endDate
  = Model.getUserStats coll userId startDate endDate.
Proof.
  intros Hp. unfold Model.getUserStats.
  destruct (filter _ (snd <$> map_to_list coll')) as [|x l1] eqn:E1,
           (filter _ (snd <$> map_to_list coll)) as [|y l2] eqn:E2; try done.
  - by apply Permutation_nil_l in Hp.
  - by apply Permutation_nil_r in Hp.
  - rewrite (Permutation_length Hp).
    rewrite (sum_Z_Permutation _ _ (fmap_Permutation duration _ _ Hp)).
    rewrite (avg_Permutation _ _ (fmap_Permutation duration _ _ Hp)).
    by rewrite (avg_Permutation _ _ (omap_Permutation quality _ _ Hp)).
Qed.

Lemma group_by_date_Permutation l1 l2 :
  l1 ≡ₚ l2 → group_by_date l1 = group_by_date l2.
Proof.
  intros Hp. apply map_eq. intros k. unfold group_by_date.
  rewrite !group_by_date_from.
  pose proof (filter_Permutation (λ s, dateString s = k) _ _ Hp) as Hf.
  destruct (filter _ l1) as [|x f1], (filter _ l2) as [|y f2]; try done.
  - by apply Permutation_nil_l in Hf.
  - by apply Permutation_nil_r in Hf.
  - by rewrite (sum_Z_Permutation _ _ (fmap_Permutation duration _ _ Hf)).
Qed.

(** X29. The statistics of one owner (totals, averages, streak and
    calendar) do not depend on the documents of the others: whatever
    another user creates, updates or deletes, the statistics answer of the
    owner is the same before and after. *)
Theorem stats_ignore_other_owners
    (trim : string → string) (coll : Collection) (actor userId : ObjectId)
    (req : Request) (resp : Response (option StudySession)) (coll' : Collection)
    (startDate endDate : option Z) (now : Z) :
  handle trim coll actor req = (resp, coll') →
  userId ≠ actor →
  Controller.getUserStats coll' userId startDate endDate now
  = Controller.getUserStats coll userId startDate endDate now.
Proof.
  intros Hh Hne. apply mongo_handle_owner in Hh as [Hf _].
  unfold Controller.getUserStats. f_equal. f_equal.
  - apply getUserStats_Permutation.
    apply (owner_filter_unchanged _ coll coll' userId actor); [|done..].
    by intros s [Hu _].
  - unfold Model.getUserStreak. f_equal. unfold sort_date_desc.
    apply (@Sorted_unique _ (flip Z.le) ge_transitive ge_antisymm).
    + apply (@Sorted_merge_sort _ (flip Z.le) _ ge_total).
    + apply (@Sorted_merge_sort _ (flip Z.le) _ ge_total).
    + rewrite !merge_sort_Permutation. apply fmap_Permutation. unfold find_user.
      by apply (owner_filter_unchanged _ coll coll' userId actor).
  - apply group_by_date_Permutation.
    apply (owner_filter_unchanged _ coll coll' userId actor); [|done..].
    by intros s [Hu _].
Qed.

Lemma stats_ignore_other_owners_witness :
  Controller.getUserStats (handle id three_days "u2" (Delete "s1")).2 "u1"
    None None (at_time 2024 1 3 20 0)
  = Controller.getUserStats three_days "u1" None None (at_time 2024 1 3 20 0).
Proof.
  apply (stats_ignore_other_owners id three_days "u2" "u1" (Delete "s1") _ _ None None
           (at_time 2024 1 3 20 0) (surjective_pairing _)).
  compute_done.
Defined.

End OwnerIsolation.
